(** * ABN AMRO MCP tools: a shallow embedding of [src/tools.ts]

    The development follows the TypeScript sources:
    - [src/tools.ts] (two network adapters, [calculateInterestRate] and
      [calculateMaximumMortgage], with their zod schemas);
    - the second tools module of the repository (same two adapters with a
      wider interest-rate schema, and the three fixed-fact adapters
      [getMortageInterestRateDeduction],
      [getMaximumMortageNationalHomeGuarantee], [getPropertyTransferTax]);
    - [src/index.ts] (the schema under which the interest-rate tool is
      registered).

    Conventions of the model.
    - A JavaScript value is a [value]; an object is an association list
      read by first match.
    - A JavaScript number is a binary64 value (the primitive [float]): the
      products and quotients of the adapters round as IEEE 754 does, and
      [NaN], the two infinities and the two zeros are numbers.
    - An exception is a [thrown] value inside [result]; an [async]
      function that would reject its promise returns [Throw].
    - Network I/O goes through a [fetch] function supplied by the
      environment; an adapter returns, next to its outcome, the list of
      requests it has issued.
    - [JSON.stringify (x, null, 2)] is modelled by the JSON document it
      writes ([JSON_stringify]); indentation changes the layout only.
    - What the JavaScript engine and the zod library render as text (error
      messages, the digits of a number that is no whole number up to 2^53)
      is a parameter, gathered in [Host]. *)

From Stdlib Require Import List String Ascii ZArith Bool Lia.
From Stdlib Require Import DecimalString.
From Stdlib Require Import PrimFloat.
From Stdlib Require FloatOps SpecFloat FloatAxioms Uint63.
Import ListNotations.

Open Scope string_scope.

Set Warnings "-register-all".
Set Warnings "-inexact-float".

(** ** JavaScript values *)

Inductive value : Type :=
| VUndefined
| VNull
| VBool (b : bool)
| VNum (x : float)
| VStr (s : string)
| VArr (items : list value)
| VObj (props : list (string * value)).

(** [o[k]] for an object given by its property list. *)
Fixpoint lookup (k : string) (props : list (string * value)) : value :=
  match props with
  | [] => VUndefined
  | (k', v) :: rest => if String.eqb k k' then v else lookup k rest
  end.

(** [k in o]. *)
Fixpoint has_key (k : string) (props : list (string * value)) : bool :=
  match props with
  | [] => false
  | (k', _) :: rest => String.eqb k k' || has_key k rest
  end.

Definition keys (props : list (string * value)) : list string :=
  map fst props.

Definition is_nullish (v : value) : bool :=
  match v with
  | VUndefined | VNull => true
  | _ => false
  end.

(** ToBoolean. *)
Definition truthy (v : value) : bool :=
  match v with
  | VUndefined | VNull => false
  | VBool b => b
  | VNum x => negb (is_zero x || is_nan x)
  | VStr s => negb (String.eqb s "")
  | VArr _ | VObj _ => true
  end.

(** [a || b] on values. *)
Definition js_or (a b : value) : value :=
  if truthy a then a else b.

(** [a === s] for a string constant [s]. *)
Definition strict_eq_str (a : value) (s : string) : bool :=
  match a with
  | VStr t => String.eqb t s
  | _ => false
  end.

(** ** Zod issues, thrown values, results *)

Inductive path_elem : Type :=
| Key (k : string)
| Index (i : nat).

Inductive ZodIssueCode : Type :=
| invalid_type
| invalid_literal
| invalid_enum_value
| invalid_union_discriminator
| too_small.

Record ZodIssue : Type := mkIssue {
  code : ZodIssueCode;
  path : list path_elem
}.

(** Where the engine raises a [TypeError]. *)
Inductive fault : Type :=
| ReadOfNullish (base : value) (prop : string)
| NotAFunction (base : value) (method : string).

Inductive thrown : Type :=
| ZodError (issues : list ZodIssue)
| JsError (message : string)
| TypeError (f : fault)
| NonError (v : value).

Inductive result (A : Type) : Type :=
| Ok (a : A)
| Throw (e : thrown).

Arguments Ok {A} a.
Arguments Throw {A} e.

Definition rbind {A B : Type} (r : result A) (k : A -> result B) : result B :=
  match r with
  | Ok a => k a
  | Throw e => Throw e
  end.

Fixpoint rmap {A B : Type} (f : A -> result B) (l : list A) : result (list B) :=
  match l with
  | [] => Ok []
  | x :: rest =>
      rbind (f x) (fun y => rbind (rmap f rest) (fun ys => Ok (y :: ys)))
  end.

(** [Array.prototype.find] with a callback that may throw: the scan stops
    at the first element the callback accepts. *)
Fixpoint rfind (p : value -> result bool) (l : list value) : result value :=
  match l with
  | [] => Ok VUndefined
  | x :: rest =>
      rbind (p x) (fun b => if b then Ok x else rfind p rest)
  end.

(** [Array.prototype.filter] with a callback that may throw: every
    element is visited. *)
Fixpoint rfilter (p : value -> result bool) (l : list value) : result (list value) :=
  match l with
  | [] => Ok []
  | x :: rest =>
      rbind (p x) (fun b =>
      rbind (rfilter p rest) (fun ys => Ok (if b then x :: ys else ys)))
  end.

(** [v.k]: a [TypeError] on [null] and [undefined].  The adapters read only
    names that are no built-in property of strings, numbers, booleans or
    arrays, so every other primitive answers [undefined]. *)
Definition get (v : value) (k : string) : result value :=
  match v with
  | VUndefined | VNull => Throw (TypeError (ReadOfNullish v k))
  | VObj props => Ok (lookup k props)
  | _ => Ok VUndefined
  end.

(** [v?.k]. *)
Definition get_opt (v : value) (k : string) : value :=
  match v with
  | VObj props => lookup k props
  | _ => VUndefined
  end.

(** ** The host: text rendered by the engine and by zod *)

Record Host : Type := mkHost {
  (** [ZodError.prototype.message] *)
  ZodError_message : list ZodIssue -> string;
  (** the engine's text of a [TypeError] *)
  TypeError_message : fault -> string;
  (** [Number.prototype.toString] away from [NaN], the infinities and the
      integers up to 2^53 in magnitude *)
  Number_toString_other : float -> string;
  (** ToNumber on strings, arrays and objects *)
  ToNumber_other : value -> float;
  (** [toString ()] of arrays and objects *)
  Object_toString : value -> string
}.

(** ** Numbers *)

(** The whole number [z] as a number; exact up to 2^53 in magnitude. *)
Definition number_of_Z (z : Z) : float :=
  if (z <? 0)%Z
  then opp (of_uint63 (Uint63.of_Z (- z)))
  else of_uint63 (Uint63.of_Z z).

(** The whole number a number is, when it is one: a finite number is
    [m * 2 ^ e] for its mantissa [m] and exponent [e]. *)
Definition integer_of (x : float) : option Z :=
  match FloatOps.Prim2SF x with
  | SpecFloat.S754_zero _ => Some 0%Z
  | SpecFloat.S754_finite s m e =>
      let z := Z.shiftl (Z.pos m) e in
      if (Z.shiftl z (- e) =? Z.pos m)%Z
      then Some (if s then (- z)%Z else z)
      else None
  | _ => None
  end.

(** ToNumber. *)
Definition ToNumber (h : Host) (v : value) : float :=
  match v with
  | VUndefined => nan
  | VNull => 0%float
  | VBool b => if b then 1%float else 0%float
  | VNum x => x
  | VStr _ | VArr _ | VObj _ => ToNumber_other h v
  end.

(** [Math.round]: the whole number nearest to [x], a tie going up; the sum
    [x + 1/2] is taken exactly, on the mantissa and exponent of [x].  [NaN],
    the infinities, the zeros and the numbers without a fractional part
    are returned as they are, and what rounds to zero from below is [-0]. *)
Definition Math_round (x : float) : float :=
  match FloatOps.Prim2SF x with
  | SpecFloat.S754_finite s m e =>
      if (0 <=? e)%Z then x
      else
        let n :=
          ((2 * (if s then Z.neg m else Z.pos m) + 2 ^ (- e)) / 2 ^ (1 - e))%Z in
        if (n =? 0)%Z then (if s then neg_zero else zero) else number_of_Z n
  | _ => x
  end.

Definition Z_toString (z : Z) : string :=
  NilZero.string_of_int (Z.to_int z).

(** [Number.prototype.toString]: a whole number up to 2^53 in magnitude is
    written in its decimal digits ([-0] as [0]); the digits of every other
    finite number (the shortest that read back as the number) are the
    host's. *)
Definition Number_toString (h : Host) (x : float) : string :=
  match integer_of x with
  | Some z =>
      if (Z.abs z <=? 2 ^ 53)%Z then Z_toString z
      else Number_toString_other h x
  | None =>
      if is_nan x then "NaN"
      else if is_infinity x then (if ltb x 0 then "-Infinity" else "Infinity")
      else Number_toString_other h x
  end.

(** ** JSON documents *)

(** The number [JSON.stringify] writes: [null] for [NaN] and the
    infinities, [0] for both zeros. *)
Definition JSON_number (x : float) : value :=
  if is_finite x then (if is_zero x then VNum 0 else VNum x) else VNull.

(** The document [JSON.stringify] writes for a value: a property whose
    value is [undefined] is left out, [undefined] inside an array is
    written [null]. *)
Fixpoint JSON_stringify (v : value) : value :=
  match v with
  | VNum x => JSON_number x
  | VArr items =>
      VArr (map (fun x => match x with
                          | VUndefined => VNull
                          | _ => JSON_stringify x
                          end) items)
  | VObj props =>
      VObj ((fix members (ps : list (string * value)) : list (string * value) :=
               match ps with
               | [] => []
               | (k, x) :: rest =>
                   match x with
                   | VUndefined => members rest
                   | _ => (k, JSON_stringify x) :: members rest
                   end
               end) props)
  | _ => v
  end.

(** What [JSON.stringify] leaves of a member: nothing when it is
    [undefined], its document otherwise. *)
Definition JSON_member (x : value) : value :=
  match x with
  | VUndefined => VUndefined
  | _ => JSON_stringify x
  end.

Fixpoint distinct_keys (props : list (string * value)) : bool :=
  match props with
  | [] => true
  | (k, _) :: rest => negb (has_key k rest) && distinct_keys rest
  end.

(** ** The slice of zod the schemas use *)

Inductive ZodNumberCheck : Type :=
| min (bound : float).

Inductive schema : Type :=
| z_enum (values : list string)
| z_literal (s : string)
| z_boolean
| z_number (checks : list ZodNumberCheck)
| z_array (element : schema)
| z_object (shape : list (string * schema))
| z_discriminatedUnion (discriminator : string) (options : list schema)
| z_optional (inner : schema)
| z_default (inner : schema) (def : value).

(** The outcome of [safeParse]. *)
Inductive parsed : Type :=
| Valid (output : value)
| Invalid (issues : list ZodIssue).

Definition issue (c : ZodIssueCode) : parsed :=
  Invalid [mkIssue c []].

Definition under (e : path_elem) (i : ZodIssue) : ZodIssue :=
  mkIssue (code i) (e :: path i).

Definition string_mem (s : string) (l : list string) : bool :=
  existsb (String.eqb s) l.

(** [input.data < check.value] is the issue [too_small]. *)
Definition check_number (x : float) (c : ZodNumberCheck) : list ZodIssue :=
  match c with
  | min bound => if ltb x bound then [mkIssue too_small []] else []
  end.

(** The literal an option of a discriminated union carries under the
    discriminator key. *)
Fixpoint shape_literal (k : string) (shape : list (string * schema)) : option string :=
  match shape with
  | [] => None
  | (k', s) :: rest =>
      if String.eqb k k'
      then match s with z_literal l => Some l | _ => None end
      else shape_literal k rest
  end.

Definition option_matches (k : string) (tag : value) (o : schema) : bool :=
  match o with
  | z_object shape =>
      match shape_literal k shape with
      | Some l => strict_eq_str tag l
      | None => false
      end
  | _ => false
  end.

(** Outcomes of the elements of an array, in order: the parsed elements
    when all are valid, otherwise every issue, each under its index. *)
Fixpoint merge_array (i : nat) (rs : list parsed) : list ZodIssue + list value :=
  match rs with
  | [] => inr []
  | r :: rest =>
      match r, merge_array (S i) rest with
      | Valid v, inr vs => inr (v :: vs)
      | Valid _, inl is' => inl is'
      | Invalid is0, inr _ => inl (map (under (Index i)) is0)
      | Invalid is0, inl is' => inl (map (under (Index i)) is0 ++ is')%list
      end
  end.

(** One more member of a parsed object: the key is set when the input had
    it or the parsed value is defined. *)
Definition set_member (input : list (string * value)) (k : string) (v : value)
    (out : list (string * value)) : list (string * value) :=
  match v with
  | VUndefined => if has_key k input then (k, v) :: out else out
  | _ => (k, v) :: out
  end.

Fixpoint safeParse (s : schema) (v : value) {struct s} : parsed :=
  match s with
  | z_enum values =>
      match v with
      | VStr x => if string_mem x values then Valid v else issue invalid_enum_value
      | _ => issue invalid_type
      end
  | z_literal l =>
      if strict_eq_str v l then Valid v else issue invalid_literal
  | z_boolean =>
      match v with
      | VBool _ => Valid v
      | _ => issue invalid_type
      end
  | z_number checks =>
      match v with
      | VNum x =>
          if is_nan x then issue invalid_type
          else
            match flat_map (check_number x) checks with
            | [] => Valid v
            | is0 => Invalid is0
            end
      | _ => issue invalid_type
      end
  | z_array element =>
      match v with
      | VArr items =>
          match merge_array 0 (map (safeParse element) items) with
          | inr vs => Valid (VArr vs)
          | inl is0 => Invalid is0
          end
      | _ => issue invalid_type
      end
  | z_object shape =>
      match v with
      | VObj input =>
          match
            (fix members (sh : list (string * schema))
                 : list ZodIssue + list (string * value) :=
               match sh with
               | [] => inr []
               | (k, s') :: rest =>
                   match safeParse s' (lookup k input), members rest with
                   | Valid x, inr out => inr (set_member input k x out)
                   | Valid _, inl is' => inl is'
                   | Invalid is0, inr _ => inl (map (under (Key k)) is0)
                   | Invalid is0, inl is' => inl (map (under (Key k)) is0 ++ is')%list
                   end
               end) shape
          with
          | inr out => Valid (VObj out)
          | inl is0 => Invalid is0
          end
      | _ => issue invalid_type
      end
  | z_discriminatedUnion discriminator options =>
      match v with
      | VObj input =>
          (fix choose (os : list schema) : parsed :=
             match os with
             | [] => Invalid [mkIssue invalid_union_discriminator [Key discriminator]]
             | o :: rest =>
                 if option_matches discriminator (lookup discriminator input) o
                 then safeParse o v
                 else choose rest
             end) options
      | _ => issue invalid_type
      end
  | z_optional inner =>
      match v with
      | VUndefined => Valid VUndefined
      | _ => safeParse inner v
      end
  | z_default inner def =>
      match v with
      | VUndefined => safeParse inner def
      | _ => safeParse inner v
      end
  end.

(** The members of a parsed object, shape member by shape member. *)
Section Members.

Variable input : list (string * value).

Fixpoint parse_members (shape : list (string * schema))
    : list ZodIssue + list (string * value) :=
  match shape with
  | [] => inr []
  | (k, s) :: rest =>
      match safeParse s (lookup k input), parse_members rest with
      | Valid x, inr out => inr (set_member input k x out)
      | Valid _, inl is' => inl is'
      | Invalid is0, inr _ => inl (map (under (Key k)) is0)
      | Invalid is0, inl is' => inl (map (under (Key k)) is0 ++ is')%list
      end
  end.

End Members.

(** [schema.parse (v)]: the parsed value, or a thrown [ZodError]. *)
Definition parse (s : schema) (v : value) : result value :=
  match safeParse s v with
  | Valid output => Ok output
  | Invalid issues => Throw (ZodError issues)
  end.

(** ** URLs *)

Module URL.

(** A [URL] object: the address up to the query, and [searchParams]. *)
Record t : Type := mk {
  base : string;
  searchParams : list (string * string)
}.

(** [new URL (s)] for an absolute address without query or fragment. *)
Definition new (s : string) : t := mk s [].

(** [url.searchParams.append (name, v)]. *)
Definition append (u : t) (name v : string) : t :=
  mk (base u) (searchParams u ++ [(name, v)])%list.

Definition hex_digit (n : nat) : ascii :=
  nth n ["0"; "1"; "2"; "3"; "4"; "5"; "6"; "7"; "8"; "9";
         "A"; "B"; "C"; "D"; "E"; "F"]%char "0"%char.

(** Bytes the form-urlencoded serializer leaves alone. *)
Definition unreserved (c : ascii) : bool :=
  let n := nat_of_ascii c in
  ((48 <=? n) && (n <=? 57) || (65 <=? n) && (n <=? 90)
   || (97 <=? n) && (n <=? 122)
   || (n =? 42) || (n =? 45) || (n =? 46) || (n =? 95))%nat.

Fixpoint encode (s : string) : string :=
  match s with
  | EmptyString => EmptyString
  | String c rest =>
      if unreserved c then String c (encode rest)
      else if (nat_of_ascii c =? 32)%nat then String "+"%char (encode rest)
      else String "%"%char
             (String (hex_digit (nat_of_ascii c / 16))
                (String (hex_digit (nat_of_ascii c mod 16)) (encode rest)))
  end.

Fixpoint serialize (ps : list (string * string)) : string :=
  match ps with
  | [] => ""
  | [(k, v)] => encode k ++ "=" ++ encode v
  | (k, v) :: rest => encode k ++ "=" ++ encode v ++ "&" ++ serialize rest
  end.

(** [url.search] without its question mark. *)
Definition query (u : t) : string := serialize (searchParams u).

(** [url.toString ()]. *)
Definition toString (u : t) : string :=
  match searchParams u with
  | [] => base u
  | _ => base u ++ "?" ++ query u
  end.

End URL.

(** ** HTTP through [fetch] *)

Record HttpRequest : Type := mkRequest {
  url : string;
  method : string;
  headers : list (string * string);
  (** the document sent as the body, [None] when the call gives none *)
  body : option value
}.

Module Response.

Record t : Type := mk {
  ok : bool;
  status : Z;
  (** the outcome of [response.text ()] *)
  text : result string;
  (** the outcome of [response.json ()] *)
  json : result value
}.

End Response.

(** The upstream as the adapter meets it: what [fetch] resolves to, or the
    value it rejects with. *)
Definition Fetch : Type := HttpRequest -> result Response.t.

(** A computation that issues requests and ends in a value or a thrown
    value: the requests issued, in order, and the outcome. *)
Definition M (A : Type) : Type := (list HttpRequest * result A)%type.

Definition ret {A : Type} (a : A) : M A := ([], Ok a).

Definition throw {A : Type} (e : thrown) : M A := ([], Throw e).

Definition lift {A : Type} (r : result A) : M A := ([], r).

Definition bind {A B : Type} (m : M A) (k : A -> M B) : M B :=
  match m with
  | (sent, Ok a) => let (sent', r) := k a in ((sent ++ sent')%list, r)
  | (sent, Throw e) => (sent, Throw e)
  end.

(** [try { m } catch (error) { handler }]. *)
Definition try_catch {A : Type} (m : M A) (handler : thrown -> M A) : M A :=
  match m with
  | (sent, Ok a) => (sent, Ok a)
  | (sent, Throw e) => let (sent', r) := handler e in ((sent ++ sent')%list, r)
  end.

(** [await fetch (url, init)]. *)
Definition call (fetch : Fetch) (req : HttpRequest) : M Response.t :=
  ([req], fetch req).

Declare Scope js_scope.
Delimit Scope js_scope with js.

Notation "x <- m ;; k" := (bind m (fun x => k))
  (at level 61, m at next level, right associativity) : js_scope.
Notation "'let?' x := r 'in' k" := (rbind r (fun x => k))
  (at level 61, x name, r at next level, right associativity) : js_scope.

Open Scope js_scope.

(** ** The result of a tool *)

Record TextContent : Type := mkText {
  type : string;
  (** the document [JSON.stringify] wrote *)
  text : value
}.

Record CallToolResult : Type := mkResult {
  content : list TextContent
}.

(** [{ content: [{ type: 'text', text: JSON.stringify (doc, null, 2) }] }]. *)
Definition text_result (doc : value) : CallToolResult :=
  mkResult [mkText "text" (JSON_stringify doc)].

(** [error instanceof Error ? error.message : 'Unknown error']. *)
Definition error_text (h : Host) (error : thrown) : string :=
  match error with
  | ZodError issues => ZodError_message h issues
  | JsError message => message
  | TypeError f => TypeError_message h f
  | NonError _ => "Unknown error"
  end.

(** A destructuring default: [{ x = d } = o]. *)
Definition or_default (v d : value) : value :=
  match v with
  | VUndefined => d
  | _ => v
  end.

(** [x.toString ()]. *)
Definition toString (h : Host) (v : value) : result string :=
  match v with
  | VUndefined | VNull => Throw (TypeError (ReadOfNullish v "toString"))
  | VBool b => Ok (if b then "true" else "false")
  | VNum x => Ok (Number_toString h x)
  | VStr s => Ok s
  | VArr _ | VObj _ => Ok (Object_toString h v)
  end.

(** ** The adapters

    The two tools modules of the repository hold the same text for
    [calculateInterestRate] and [calculateMaximumMortgage]; they differ in
    the constant [InterestRateRequestSchema] only, which is a variable of
    this section and is fixed per module below. *)

Definition MaximumMortgageRequestSchema : schema :=
  z_object
    [("mainIncome", z_number [min 0]);
     ("partnerIncome", z_optional (z_number [min 0]))].

Definition interest_rate_endpoint : string :=
  "https://hypotheken.abnamro.nl/mortgage-customer-interest-rate-calculation/v1/interest-rates/calculate".

Definition maximum_mortgage_endpoint : string :=
  "https://hypotheken.abnamro.nl/hypotheekorientatie/api/v1.0/snelle-hypotheek-berekening".

Section Adapters.

Variable h : Host.
Variable InterestRateRequestSchema : schema.
Variable fetch : Fetch.

(** [(r) => r.type === tag]. *)
Definition has_type (tag : string) (r : value) : result bool :=
  let? t := get r "type" in
  Ok (strict_eq_str t tag).

(** [period.rates?.find ((r) => r.type === 'NHG')?.value]. *)
Definition dutchNationalMortgageGuarantee (rates : value) : result value :=
  match rates with
  | VUndefined | VNull => Ok VUndefined
  | VArr items =>
      let? found := rfind (has_type "NHG") items in
      Ok (get_opt found "value")
  | _ => Throw (TypeError (NotAFunction rates "find"))
  end.

(** [(r) => ({ range: r.ltv, rate: r.value })]. *)
Definition range_rate (r : value) : result value :=
  let? ltv := get r "ltv" in
  let? v := get r "value" in
  Ok (VObj [("range", ltv); ("rate", v)]).

(** [period.rates?.filter ((r) => r.type === 'LTV').map (...)]. *)
Definition lifeTimeValue (rates : value) : result value :=
  match rates with
  | VUndefined | VNull => Ok VUndefined
  | VArr items =>
      let? kept := rfilter (has_type "LTV") items in
      let? out := rmap range_rate kept in
      Ok (VArr out)
  | _ => Throw (TypeError (NotAFunction rates "filter"))
  end.

(** [Math.round (duration / 12 * 10) / 10]. *)
Definition durationInYears (duration : value) : value :=
  VNum (Math_round (ToNumber h duration / 12 * 10) / 10).

(** The callback of [data.periods?.map]. *)
Definition period_entry (period : value) : result value :=
  let? duration := get period "duration" in
  let? duration' := get period "duration" in
  let? inactive := get period "inactive" in
  let? type_ := get period "type" in
  let? reflectionPeriod := get period "reflectionPeriod" in
  let? rates := get period "rates" in
  let? nhg := dutchNationalMortgageGuarantee rates in
  let? rates' := get period "rates" in
  let? ltv := lifeTimeValue rates' in
  Ok (VObj
        [("duration", duration);
         ("durationInYears", durationInYears duration');
         ("inactive", inactive);
         ("type", type_);
         ("reflectionPeriod", reflectionPeriod);
         ("rates",
          VObj [("dutchNationalMortgageGuarantee", nhg);
                ("lifeTimeValue", ltv)])]).

(** [data.periods?.map (...) || []]. *)
Definition periods (data : value) : result value :=
  let? raw := get data "periods" in
  let? mapped :=
    match raw with
    | VUndefined | VNull => Ok VUndefined
    | VArr items =>
        let? out := rmap period_entry items in
        Ok (VArr out)
    | _ => Throw (TypeError (NotAFunction raw "map"))
    end in
  Ok (js_or mapped (VArr [])).

(** The object handed to [JSON.stringify] on success. *)
Definition interest_rate_success (product type_ discounts inactive data : value)
    : result value :=
  let? rate := get data "overbruggingskrediet" in
  let? rateSheetDate := get data "renteblad" in
  let? options := get data "overbruggingskredieten" in
  let? ps := periods data in
  let? interestRate := get data "interestRate" in
  let? effectiveRate := get data "effectiveRate" in
  let? baseRate := get data "baseRate" in
  let? appliedDiscounts := get data "appliedDiscounts" in
  let? calculationDate := get data "calculationDate" in
  Ok (VObj
        [("success", VBool true);
         ("data",
          VObj
            [("bridgingCredit",
              VObj [("rate", rate);
                    ("rateSheetDate", rateSheetDate);
                    ("options", options)]);
             ("periods", ps);
             ("interestRate", interestRate);
             ("effectiveRate", effectiveRate);
             ("baseRate", baseRate);
             ("appliedDiscounts", appliedDiscounts);
             ("calculationDate", calculationDate);
             ("requestParameters",
              VObj [("product", product);
                    ("type", type_);
                    ("discounts", discounts);
                    ("inactive", inactive)])])]).

(** The [try] block of [calculateInterestRate]. *)
Definition calculateInterestRate_try (args : value) : M CallToolResult :=
  parsed <- lift (parse InterestRateRequestSchema args) ;;
  product <- lift (get parsed "product") ;;
  type_ <- lift (get parsed "type") ;;
  discounts0 <- lift (get parsed "discounts") ;;
  inactive0 <- lift (get parsed "inactive") ;;
  let discounts := or_default discounts0 (VArr []) in
  let inactive := or_default inactive0 (VBool false) in
  let requestBody :=
    VObj [("product", product); ("type", type_); ("discounts", discounts)] in
  let url0 := URL.new interest_rate_endpoint in
  let url1 :=
    if truthy inactive then URL.append url0 "inactive" "true" else url0 in
  response <-
    call fetch
      (mkRequest (URL.toString url1) "POST"
         [("Content-Type", "application/json")]
         (Some (JSON_stringify requestBody))) ;;
  if negb (Response.ok response)
  then
    errorText <- lift (Response.text response) ;;
    throw
      (JsError
         ("ABN AMRO API error (" ++ Z_toString (Response.status response)
          ++ "): " ++ errorText))
  else
    data <- lift (Response.json response) ;;
    doc <- lift (interest_rate_success product type_ discounts inactive data) ;;
    ret (text_result doc).

(** The document of a failure: [{ success: false, error: prefix + message }]. *)
Definition failure (prefix : string) (error : thrown) : CallToolResult :=
  text_result
    (VObj [("success", VBool false);
           ("error", VStr (prefix ++ error_text h error))]).

Definition calculateInterestRate (args : value) : M CallToolResult :=
  try_catch (calculateInterestRate_try args)
    (fun error => ret (failure "Failed to calculate interest rate: " error)).

(** The object handed to [JSON.stringify] on success. *)
Definition maximum_mortgage_success (mainIncome partnerIncome data : value)
    : result value :=
  let? v1 := get data "value" in
  let? v2 := get data "value" in
  let? v3 := get data "value" in
  let? messages := get data "messages" in
  Ok (VObj
        [("success", VBool true);
         ("data",
          VObj
            [("maximumMortgage", js_or (get_opt v1 "maximumMortgage") VNull);
             ("monthlyPayment", js_or (get_opt v2 "monthlyPayment") VNull);
             ("interest", js_or (get_opt v3 "interest") VNull);
             ("messages", messages);
             ("requestParameters",
              VObj [("mainIncome", mainIncome);
                    ("partnerIncome", partnerIncome)])])]).

(** The [try] block of [calculateMaximumMortgage]. *)
Definition calculateMaximumMortgage_try (args : value) : M CallToolResult :=
  parsed <- lift (parse MaximumMortgageRequestSchema args) ;;
  mainIncome <- lift (get parsed "mainIncome") ;;
  partnerIncome <- lift (get parsed "partnerIncome") ;;
  let url0 := URL.new maximum_mortgage_endpoint in
  main <- lift (toString h mainIncome) ;;
  let url1 := URL.append url0 "mainIncome" main in
  url2 <-
    match partnerIncome with
    | VUndefined => ret url1
    | _ =>
        partner <- lift (toString h partnerIncome) ;;
        ret (URL.append url1 "partnerIncome" partner)
    end ;;
  response <-
    call fetch
      (mkRequest (URL.toString url2) "GET"
         [("Accept", "application/json")] None) ;;
  if negb (Response.ok response)
  then
    errorText <- lift (Response.text response) ;;
    throw
      (JsError
         ("ABN AMRO API error (" ++ Z_toString (Response.status response)
          ++ "): " ++ errorText))
  else
    data <- lift (Response.json response) ;;
    doc <- lift (maximum_mortgage_success mainIncome partnerIncome data) ;;
    ret (text_result doc).

Definition calculateMaximumMortgage (args : value) : M CallToolResult :=
  try_catch (calculateMaximumMortgage_try args)
    (fun error => ret (failure "Failed to calculate maximum mortgage: " error)).

End Adapters.

(** The discount variants, shared by every interest-rate schema. *)
Definition discounts_schema : schema :=
  z_default
    (z_optional
       (z_array
          (z_discriminatedUnion "type"
             [z_object [("type", z_literal "BANK_ACCOUNT")];
              z_object [("type", z_literal "SUSTAINABILITY");
                        ("label", z_enum ["B"; "A_OR_HIGHER"])]])))
    (VArr []).

(** The interest-rate schemas of the two tools modules and of the
    registration, as one family over the two closed sets. *)
Definition interest_schema (products types : list string) : schema :=
  z_object
    [("product", z_enum products);
     ("type", z_enum types);
     ("discounts", discounts_schema);
     ("inactive", z_default (z_optional z_boolean) (VBool false))].

(** ** [src/tools.ts] *)

Module Tools.

Definition InterestRateRequestSchema : schema :=
  z_object
    [("product", z_enum ["BUDGET"]);
     ("type", z_enum ["ANNUITAIR"]);
     ("discounts", discounts_schema);
     ("inactive", z_default (z_optional z_boolean) (VBool false))].

Definition calculateInterestRate (h : Host) (fetch : Fetch) (args : value)
    : M CallToolResult :=
  calculateInterestRate h InterestRateRequestSchema fetch args.

Definition calculateMaximumMortgage (h : Host) (fetch : Fetch) (args : value)
    : M CallToolResult :=
  calculateMaximumMortgage h fetch args.

End Tools.

(** ** The second tools module (with the fixed-fact adapters) *)

Module Tools2.

Definition InterestRateRequestSchema : schema :=
  z_object
    [("product", z_enum ["BUDGET"; "WONING"]);
     ("type", z_enum ["ANNUITAIR"; "LINEAIR"; "AFLOSSINGSVRIJ"]);
     ("discounts", discounts_schema);
     ("inactive", z_default (z_optional z_boolean) (VBool false))].

Definition HouseTaxQuotaRequestSchema : schema :=
  z_object [("housePrice", z_number [min 0])].

Definition MaxTransferTaxPremiumCap : float := 525000%float.
Definition TransferTaxRate : float := 0.02%float.
Definition MaxInterestRepaymentDeductionRate : float := 37.48%float.

Definition calculateInterestRate (h : Host) (fetch : Fetch) (args : value)
    : M CallToolResult :=
  calculateInterestRate h InterestRateRequestSchema fetch args.

Definition calculateMaximumMortgage (h : Host) (fetch : Fetch) (args : value)
    : M CallToolResult :=
  calculateMaximumMortgage h fetch args.

Definition getMortageInterestRateDeduction : result CallToolResult :=
  Ok (text_result
        (VObj
           [("success", VBool true);
            ("data",
             VObj
               [("deductionPercentage",
                 VNum MaxInterestRepaymentDeductionRate);
                ("description",
                 VStr "Maximum tax deduction rate for mortgage interest payments in the Netherlands for 2025 (37.48% of interest paid can be deducted from taxable income)")])])).

Definition getMaximumMortageNationalHomeGuarantee : result CallToolResult :=
  Ok (text_result
        (VObj
           [("success", VBool true);
            ("data",
             VObj
               [("deductionPercentage", VNum 450000);
                ("description",
                 VStr "Dutch National Mortgage Guarantee (NHG) limit for 2025: mortgages up to €450,000 qualify for lower NHG interest rates")])])).

(** [var taxQuota = 0; if (housePrice > cap) { taxQuota = housePrice * rate; }] *)
Definition taxQuota (h : Host) (housePrice : value) : value :=
  if ltb MaxTransferTaxPremiumCap (ToNumber h housePrice)
  then VNum (ToNumber h housePrice * TransferTaxRate)
  else VNum 0.

(** No [try] here: what [parse] throws leaves the function. *)
Definition getPropertyTransferTax (h : Host) (args : value)
    : result CallToolResult :=
  let? parsed := parse HouseTaxQuotaRequestSchema args in
  let? housePrice := get parsed "housePrice" in
  Ok (text_result
        (VObj
           [("success", VBool true);
            ("data",
             VObj
               [("taxQuota", taxQuota h housePrice);
                ("description",
                 VStr "Dutch property transfer tax for 2025: 2% of the purchase price for properties above €525,000")])])).

End Tools2.

(** ** [src/index.ts]: the registration of the interest-rate tool *)

Module Index.

(** The shape registered for [calculate-interest-rate]; the server parses
    the arguments of a call with it before it calls the adapter of
    [src/tools.ts]. *)
Definition calculate_interest_rate_shape : schema :=
  z_object
    [("product", z_enum ["BUDGET"; "WONING"]);
     ("type", z_enum ["ANNUITAIR"; "LINEAIR"; "AFLOSSINGSVRIJ"]);
     ("discounts", discounts_schema);
     ("inactive", z_default (z_optional z_boolean) (VBool false))].

Definition calculate_maximum_mortgage_shape : schema :=
  z_object
    [("mainIncome", z_number [min 0]);
     ("partnerIncome", z_optional (z_number [min 0]))].

End Index.

(** ** Reading a result *)

(** The document of a result that has the one text block the adapters
    build. *)
Definition document (r : CallToolResult) : option value :=
  match content r with
  | [c] => if String.eqb (type c) "text" then Some (text c) else None
  | _ => None
  end.

(** [doc.a.b...]: a path of property reads, [undefined] where it breaks. *)
Fixpoint at_path (v : value) (p : list string) : value :=
  match p with
  | [] => v
  | k :: rest => at_path (get_opt v k) rest
  end.

(** The envelope [{ success, data?, error? }]: a success carries [data] and
    no [error], a failure carries a string [error] and no [data]. *)
Definition well_formed_envelope (doc : value) : bool :=
  match doc with
  | VObj props =>
      match lookup "success" props with
      | VBool true => has_key "data" props && negb (has_key "error" props)
      | VBool false =>
          match lookup "error" props with
          | VStr _ => negb (has_key "data" props)
          | _ => false
          end
      | _ => false
      end
  | _ => false
  end.

(** A host for running the model on concrete inputs; the texts it renders
    are placeholders, and no statement below depends on them. *)
Definition sample_host : Host :=
  mkHost (fun _ => "zod issues") (fun _ => "type error") (fun _ => "number")
    (fun _ => nan) (fun _ => "object").

(** ** The fixtures of the test suite *)

Module Fixtures.

Definition validRequest : value :=
  VObj [("product", VStr "BUDGET");
        ("type", VStr "ANNUITAIR");
        ("discounts", VArr [VObj [("type", VStr "BANK_ACCOUNT")]]);
        ("inactive", VBool false)].

Definition mockApiResponse : value :=
  VObj
    [("overbruggingskrediet", VNum 3.5);
     ("renteblad", VStr "2024-01-15");
     ("overbruggingskredieten", VArr []);
     ("periods",
      VArr
        [VObj
           [("duration", VNum 120);
            ("inactive", VBool false);
            ("type", VStr "VAST");
            ("reflectionPeriod", VNum 14);
            ("rates",
             VArr
               [VObj [("type", VStr "NHG"); ("value", VNum 3.2)];
                VObj [("type", VStr "LTV"); ("ltv", VStr "80-90%");
                      ("value", VNum 3.5)];
                VObj [("type", VStr "LTV"); ("ltv", VStr "90-100%");
                      ("value", VNum 3.8)]])]]);
     ("interestRate", VNum 3.2);
     ("effectiveRate", VNum 3.25);
     ("baseRate", VNum 3);
     ("appliedDiscounts", VArr [VStr "BANK_ACCOUNT"]);
     ("calculationDate", VStr "2024-01-15T10:00:00Z")].

Definition mortgageRequest : value :=
  VObj [("mainIncome", VNum 50000); ("partnerIncome", VNum 30000)].

Definition mortgageResponse : value :=
  VObj
    [("value",
      VObj [("maximumMortgage", VNum 280000);
            ("monthlyPayment", VNum 1250);
            ("interest", VNum 3.5)]);
     ("messages", VArr [VStr "Calculation completed successfully"])].

(** [mockFetch.mockResolvedValue ({ ok: true, status: 200, json })]. *)
Definition mockFetch (payload : value) : Fetch :=
  fun _ => Ok (Response.mk true 200 (Throw (TypeError (NotAFunction VUndefined "text")))
          (Ok payload)).

End Fixtures.

(** ** Vocabulary of the statements *)

(** Neither [null] nor [undefined]. *)
Definition defined (v : value) : Prop := is_nullish v = false.

(** [r.type === tag], for an [r] that can be read. *)
Definition tagged (tag : string) (r : value) : bool :=
  strict_eq_str (get_opt r "type") tag.

(** [{ range: r.ltv, rate: r.value }]. *)
Definition reshaped (r : value) : value :=
  VObj [("range", get_opt r "ltv"); ("rate", get_opt r "value")].

(** [arr[i]]. *)
Definition item (v : value) (i : nat) : value :=
  match v with
  | VArr items => nth i items VUndefined
  | _ => VUndefined
  end.

(** [arr.length] of an array. *)
Definition items_length (v : value) : option nat :=
  match v with
  | VArr items => Some (List.length items)
  | _ => None
  end.

(** What a caller reads at a path of the document an adapter returned;
    [None] when the adapter threw or returned no single text block. *)
Definition read (run : M CallToolResult) (p : list string) : option value :=
  match snd run with
  | Ok r => option_map (fun doc => at_path doc p) (document r)
  | Throw _ => None
  end.

(** [result.content.length]. *)
Definition content_length (run : M CallToolResult) : option nat :=
  match snd run with
  | Ok r => Some (List.length (content r))
  | Throw _ => None
  end.

(** The members the maximum-mortgage adapter takes from [data.value]. *)
Definition value_fields : list string :=
  ["maximumMortgage"; "monthlyPayment"; "interest"].

(** The address the adapter builds from the two incomes. *)
Definition maximum_mortgage_url (h : Host) (mainIncome partnerIncome : value)
    : string :=
  match mainIncome, partnerIncome with
  | VNum q, VNum p =>
      maximum_mortgage_endpoint ++ "?mainIncome="
      ++ URL.encode (Number_toString h q)
      ++ "&partnerIncome=" ++ URL.encode (Number_toString h p)
  | VNum q, _ =>
      maximum_mortgage_endpoint ++ "?mainIncome="
      ++ URL.encode (Number_toString h q)
  | _, _ => maximum_mortgage_endpoint
  end.

(** A discount as the schema writes it: the tag alone, or the tag and one
    of the two labels. *)
Definition discount_doc (d : value) : Prop :=
  d = VObj [("type", VStr "BANK_ACCOUNT")]
  \/ exists l,
       In l ["B"; "A_OR_HIGHER"]
       /\ d = VObj [("type", VStr "SUSTAINABILITY"); ("label", VStr l)].

(** The two discount variants, as [discounts_schema] lists them. *)
Definition discount_variants : schema :=
  z_discriminatedUnion "type"
    [z_object [("type", z_literal "BANK_ACCOUNT")];
     z_object [("type", z_literal "SUSTAINABILITY");
               ("label", z_enum ["B"; "A_OR_HIGHER"])]].

(** Rates the adapter reads without a fault: none at all, or a list none
    of whose entries is [null] or [undefined]. *)
Definition readable_rates (rates : value) : Prop :=
  is_nullish rates = true
  \/ exists items, rates = VArr items /\ Forall defined items.

Definition readable_period (period : value) : Prop :=
  defined period /\ readable_rates (get_opt period "rates").

(** The members of the payload the interest-rate adapter copies as they
    are. *)
Definition legacy_fields : list string :=
  ["interestRate"; "effectiveRate"; "baseRate"; "appliedDiscounts";
   "calculationDate"].



Definition payload_months : value :=
  VObj
    [("periods",
      VArr [VObj [("duration", VNum 120)]; VObj [("duration", VNum 125)]])].

(** [p] holds of the [n] whole numbers from [i] on. *)
Fixpoint all_from (p : Z -> bool) (n : nat) (i : Z) : bool :=
  match n with
  | O => true
  | S k => if p i then all_from p k (i + 1) else false
  end.


(** The tenths of a year in [d] months: the whole number nearest to
    [d * 10 / 12], a tie going up. *)
Definition tenths (d : Z) : Z := (10 * d + 6) / 12.


(** [Math.round (d / 12 * 10) / 10] for [12 * n] months is [n]. *)
Definition whole_years (n : Z) : bool :=
  Leibniz.eqb (Math_round (number_of_Z (12 * n) / 12 * 10) / 10)
    (number_of_Z n).

(** [Math.round (d / 12 * 10) / 10] for [d + 12] months is the value for
    [d] months plus 1. *)
Definition year_more (d : Z) : bool :=
  Leibniz.eqb (Math_round (number_of_Z (d + 12) / 12 * 10) / 10)
    (Math_round (number_of_Z d / 12 * 10) / 10 + 1).

(** ** [src/index.ts]: the prompt [mortgage-guidance] *)

Record PromptMessage : Type := mkPrompt {
  role : string;
  prompt_content : TextContent
}.

(** [({ message }) => ({ messages: [{ role: 'user', content: { type: 'text',
    text: `... Additional context: ${message}` } }] })]. *)
Definition mortgage_guidance (message : string) : list PromptMessage :=
  [mkPrompt "user"
     (mkText "text"
        (VStr ("Please help me with ABN AMRO mortgage calculations and interest rates. Additional context: "
               ++ message)))].

(** * Properties *)

(** ** Numbers *)

Lemma SFcompare_refl (y : SpecFloat.spec_float) :
  y <> SpecFloat.S754_nan -> SpecFloat.SFcompare y y = Some Eq.
Proof.
  destruct y as [s | s | | s m e]; intros H; try reflexivity.
  - destruct s; reflexivity.
  - contradiction.
  - cbn [SpecFloat.SFcompare]. rewrite Z.compare_refl.
    change (Pos.compare_cont Eq m m) with (Pos.compare m m).
    rewrite Pos.compare_refl. destruct s; reflexivity.
Qed.

Lemma is_nan_spec (x : float) :
  is_nan x = true <-> FloatOps.Prim2SF x = SpecFloat.S754_nan.
Proof.
  unfold is_nan. rewrite FloatAxioms.eqb_spec. unfold SpecFloat.SFeqb.
  split.
  - intros H. destruct (FloatOps.Prim2SF x) eqn:E; try reflexivity;
      rewrite SFcompare_refl in H by discriminate; discriminate.
  - intros ->. reflexivity.
Qed.

Lemma is_nan_false (x : float) :
  is_nan x = false <-> FloatOps.Prim2SF x <> SpecFloat.S754_nan.
Proof.
  rewrite <- is_nan_spec. destruct (is_nan x); split; congruence.
Qed.

(** [0 <= x] holds of the numbers that are not [NaN] and not below 0. *)
Lemma nonnegative_spec (x : float) :
  (0 <=? x)%float = true <-> is_nan x = false /\ (x <? 0)%float = false.
Proof.
  rewrite is_nan_false, FloatAxioms.leb_spec, FloatAxioms.ltb_spec.
  change (FloatOps.Prim2SF 0) with (SpecFloat.S754_zero false).
  destruct (FloatOps.Prim2SF x) as [s | s | | s m e];
    cbn; try destruct s; split; try intros [? ?]; intros; try split;
    try discriminate; try reflexivity; try congruence.
Qed.

Lemma negative_not_nan (x : float) :
  (x <? 0)%float = true -> is_nan x = false.
Proof.
  rewrite is_nan_false, FloatAxioms.ltb_spec.
  destruct (FloatOps.Prim2SF x); intros H; discriminate.
Qed.

Lemma VNum_inj (a b : float) : VNum a = VNum b -> a = b.
Proof.
  intros H.
  exact (f_equal (fun v => match v with VNum x => x | _ => a end) H).
Qed.

Lemma VStr_inj (a b : string) : VStr a = VStr b -> a = b.
Proof.
  intros H.
  exact (f_equal (fun v => match v with VStr x => x | _ => a end) H).
Qed.

(** What [z.number ().min (0)] lets through. *)
Lemma number_accepts (x : float) :
  (0 <=? x)%float = true -> safeParse (z_number [min 0]) (VNum x) = Valid (VNum x).
Proof.
  intros H. apply nonnegative_spec in H. destruct H as [Hn Hl].
  cbn [safeParse flat_map check_number app]. rewrite Hn, Hl. reflexivity.
Qed.

Lemma number_refuses (x : float) :
  (0 <=? x)%float = false ->
  exists issues, safeParse (z_number [min 0]) (VNum x) = Invalid issues.
Proof.
  intros H. cbn [safeParse flat_map check_number app].
  destruct (is_nan x) eqn:Hn; [eexists; reflexivity |].
  destruct (x <? 0)%float eqn:Hl; [eexists; reflexivity |].
  exfalso. assert (Hc : (0 <=? x)%float = true) by (apply nonnegative_spec; auto).
  congruence.
Qed.

Lemma number_negative (x : float) :
  (x <? 0)%float = true ->
  safeParse (z_number [min 0]) (VNum x) = Invalid [mkIssue too_small []].
Proof.
  intros H. cbn [safeParse flat_map check_number app].
  rewrite (negative_not_nan x H), H. reflexivity.
Qed.

Lemma number_valid (v out : value) :
  safeParse (z_number [min 0]) v = Valid out ->
  exists x, v = VNum x /\ out = VNum x /\ (0 <=? x)%float = true.
Proof.
  destruct v as [| | | x | | |]; try (simpl; discriminate).
  intros H. destruct (0 <=? x)%float eqn:E.
  - rewrite (number_accepts x E) in H. inversion H. eauto.
  - destruct (number_refuses x E) as (issues & Hi). congruence.
Qed.

(** ** Reading a written document *)

Lemma stringify_absent (k : string) (props : list (string * value)) :
  has_key k props = false ->
  get_opt (JSON_stringify (VObj props)) k = VUndefined.
Proof.
  induction props as [| [k' x] rest IH]; simpl; intros Hk.
  - reflexivity.
  - apply orb_false_iff in Hk. destruct Hk as [Hne Hrest].
    specialize (IH Hrest). simpl in IH.
    destruct x; simpl; try rewrite Hne; exact IH.
Qed.

Lemma stringify_lookup (k : string) (props : list (string * value)) :
  distinct_keys props = true ->
  get_opt (JSON_stringify (VObj props)) k = JSON_member (lookup k props).
Proof.
  induction props as [| [k' x] rest IH]; simpl; intros Hd.
  - reflexivity.
  - apply andb_true_iff in Hd. destruct Hd as [Hfresh Hd].
    specialize (IH Hd). simpl in IH.
    destruct (String.eqb k k') eqn:E.
    + apply String.eqb_eq in E. subst k'.
      apply negb_true_iff in Hfresh.
      pose proof (stringify_absent k rest Hfresh) as Habs. simpl in Habs.
      destruct x; simpl; rewrite ?String.eqb_refl; try reflexivity.
      exact Habs.
    + destruct x; simpl; rewrite ?E; exact IH.
Qed.

Lemma document_data_member (members : list (string * value)) (k : string) :
  distinct_keys members = true ->
  at_path
    (JSON_stringify (VObj [("success", VBool true); ("data", VObj members)]))
    ["data"; k]
  = JSON_member (lookup k members).
Proof.
  intros Hd. cbn [at_path].
  rewrite (stringify_lookup "data") by reflexivity.
  cbn [lookup String.eqb Ascii.eqb Bool.eqb JSON_member].
  apply stringify_lookup. exact Hd.
Qed.

(** ** The monad of requests *)

Lemma bind_lift {A B : Type} (r : result A) (k : A -> M B) :
  bind (lift r) k
  = match r with
    | Ok a => k a
    | Throw e => ([], Throw e)
    end.
Proof.
  destruct r as [a | e]; simpl; [destruct (k a) |]; reflexivity.
Qed.

Lemma bind_call {B : Type} (fetch : Fetch) (req : HttpRequest)
    (k : Response.t -> M B) :
  bind (call fetch req) k
  = match fetch req with
    | Ok response => (req :: fst (k response), snd (k response))
    | Throw e => ([req], Throw e)
    end.
Proof.
  unfold call, bind.
  destruct (fetch req) as [response | e]; [destruct (k response) |];
    reflexivity.
Qed.

(** ** What the schemas let through *)

Lemma Tools_schema :
  Tools.InterestRateRequestSchema = interest_schema ["BUDGET"] ["ANNUITAIR"].
Proof. reflexivity. Qed.

Lemma Tools2_schema :
  Tools2.InterestRateRequestSchema
  = interest_schema ["BUDGET"; "WONING"] ["ANNUITAIR"; "LINEAIR"; "AFLOSSINGSVRIJ"].
Proof. reflexivity. Qed.

Lemma Index_schema :
  Index.calculate_interest_rate_shape = Tools2.InterestRateRequestSchema.
Proof. reflexivity. Qed.

Lemma Index_mortgage_schema :
  Index.calculate_maximum_mortgage_shape = MaximumMortgageRequestSchema.
Proof. reflexivity. Qed.

Lemma discounts_valid (v out : value) :
  safeParse discounts_schema v = Valid out -> exists ds, out = VArr ds.
Proof.
  unfold discounts_schema.
  destruct v; simpl; intros H; try discriminate.
  - inversion H. eauto.
  - match type of H with
    | match ?m with inl _ => _ | inr _ => _ end = _ => destruct m
    end; inversion H. eauto.
Qed.

Lemma enum_valid (values : list string) (v out : value) :
  safeParse (z_enum values) v = Valid out ->
  exists s, v = VStr s /\ out = VStr s /\ string_mem s values = true.
Proof.
  destruct v; simpl; intros H; try discriminate.
  destruct (string_mem s values) eqn:E; try discriminate.
  inversion H. eauto.
Qed.

Lemma inactive_valid (v out : value) :
  safeParse (z_default (z_optional z_boolean) (VBool false)) v = Valid out ->
  exists b, out = VBool b /\ (v = VUndefined /\ b = false \/ v = VBool b).
Proof.
  destruct v; simpl; intros H; try discriminate; inversion H; eauto.
Qed.

Lemma safeParse_object (shape : list (string * schema)) (input : list (string * value)) :
  safeParse (z_object shape) (VObj input)
  = match parse_members input shape with
    | inr out => Valid (VObj out)
    | inl is0 => Invalid is0
    end.
Proof. reflexivity. Qed.

Lemma parse_members_cons_valid (input : list (string * value)) (k : string)
    (s : schema) (rest : list (string * schema)) (out : list (string * value)) :
  parse_members input ((k, s) :: rest) = inr out ->
  exists x out',
    safeParse s (lookup k input) = Valid x
    /\ parse_members input rest = inr out'
    /\ out = set_member input k x out'.
Proof.
  simpl.
  destruct (safeParse s (lookup k input)) as [x | is0];
    destruct (parse_members input rest) as [is' | out']; intros H;
    try discriminate.
  inversion H. eauto.
Qed.

(** A request the interest-rate schema lets through has exactly the four
    members, a string from each closed set, an array and a boolean. *)
Lemma interest_schema_valid (products types : list string) (args out : value) :
  safeParse (interest_schema products types) args = Valid out ->
  exists props p t ds b,
    args = VObj props
    /\ out = VObj [("product", VStr p); ("type", VStr t);
                   ("discounts", VArr ds); ("inactive", VBool b)]
    /\ lookup "product" props = VStr p /\ string_mem p products = true
    /\ lookup "type" props = VStr t /\ string_mem t types = true
    /\ (lookup "inactive" props = VUndefined /\ b = false
        \/ lookup "inactive" props = VBool b).
Proof.
  unfold interest_schema. intros H.
  destruct args as [| | | | | | props]; try discriminate.
  rewrite safeParse_object in H.
  destruct (parse_members props _) as [is0 | out0] eqn:E; try discriminate.
  inversion H; subst out; clear H.
  apply parse_members_cons_valid in E. destruct E as (x1 & o1 & E1 & E & ->).
  apply parse_members_cons_valid in E. destruct E as (x2 & o2 & E2 & E & ->).
  apply parse_members_cons_valid in E. destruct E as (x3 & o3 & E3 & E & ->).
  apply parse_members_cons_valid in E. destruct E as (x4 & o4 & E4 & E & ->).
  simpl in E. inversion E; subst o4; clear E.
  apply enum_valid in E1. destruct E1 as (p & Hp & -> & Hmp).
  apply enum_valid in E2. destruct E2 as (t & Ht & -> & Hmt).
  apply discounts_valid in E3. destruct E3 as (ds & ->).
  apply inactive_valid in E4. destruct E4 as (b & -> & Hb).
  exists props, p, t, ds, b. simpl. repeat split; auto.
Qed.

(** ** The run of the interest-rate adapter *)

Lemma interest_url_inactive :
  URL.toString (URL.append (URL.new interest_rate_endpoint) "inactive" "true")
  = interest_rate_endpoint ++ "?inactive=true".
Proof. reflexivity. Qed.

Lemma interest_url_plain :
  URL.toString (URL.new interest_rate_endpoint) = interest_rate_endpoint.
Proof. reflexivity. Qed.

(** What the adapter does once the arguments are through the schema: one
    request, then the reading of the response. *)
Lemma interest_try_run (h : Host) (S : schema) (fetch : Fetch) (args : value)
    (p t : value) (ds : list value) (b : bool) :
  parse S args
  = Ok (VObj [("product", p); ("type", t); ("discounts", VArr ds);
              ("inactive", VBool b)]) ->
  let req :=
    mkRequest
      (if b then interest_rate_endpoint ++ "?inactive=true"
       else interest_rate_endpoint)
      "POST" [("Content-Type", "application/json")]
      (Some (JSON_stringify
               (VObj [("product", p); ("type", t); ("discounts", VArr ds)]))) in
  calculateInterestRate_try h S fetch args
  = ([req],
     let? response := fetch req in
     if negb (Response.ok response)
     then
       let? errorText := Response.text response in
       Throw
         (JsError
            ("ABN AMRO API error (" ++ Z_toString (Response.status response)
             ++ "): " ++ errorText))
     else
       let? data := Response.json response in
       let? doc := interest_rate_success h p t (VArr ds) (VBool b) data in
       Ok (text_result doc)).
Proof.
  intros Hparse req. unfold calculateInterestRate_try.
  rewrite Hparse.
  repeat (rewrite bind_lift;
          cbn [get lookup String.eqb Ascii.eqb Bool.eqb or_default truthy]).
  rewrite bind_call.
  replace (URL.toString _) with (url req).
  2:{ destruct b; [rewrite interest_url_inactive | rewrite interest_url_plain];
      reflexivity. }
  change (mkRequest (url req) "POST" [("Content-Type", "application/json")]
            (Some (JSON_stringify
                     (VObj [("product", p); ("type", t); ("discounts", VArr ds)]))))
    with req.
  destruct (fetch req) as [response | e]; [| reflexivity].
  cbn [rbind].
  destruct (negb (Response.ok response)).
  - rewrite bind_lift. destruct (Response.text response); reflexivity.
  - rewrite bind_lift.
    destruct (Response.json response) as [data | e]; [| reflexivity].
    rewrite bind_lift. cbn [rbind].
    destruct (interest_rate_success h p t (VArr ds) (VBool b) data);
      reflexivity.
Qed.

Lemma parse_valid (S : schema) (args out : value) :
  parse S args = Ok out <-> safeParse S args = Valid out.
Proof.
  unfold parse. destruct (safeParse S args); split; intros H;
    inversion H; reflexivity.
Qed.

Lemma interest_schemas (S : schema) :
  In S [Tools.InterestRateRequestSchema; Tools2.InterestRateRequestSchema] ->
  exists products types, S = interest_schema products types.
Proof.
  intros [<- | [<- | []]]; eauto using Tools_schema, Tools2_schema.
Qed.

(** C3.  For every request the interest-rate schema lets through (the
    schema of either tools module), the adapter issues one POST request
    whose body has exactly the members [product], [type] (the repayment
    type) and [discounts], in that order and with the validated values; the
    flag [inactive] (the spec's includeInactive) is no member of the body
    under either name.  When the flag is true the address is the endpoint
    followed by [?inactive=true]; when it is false the address is the bare
    endpoint, in which the word [inactive] does not occur. *)
Theorem interest_request_body_and_url (h : Host) (S : schema) (fetch : Fetch)
    (args out : value) :
  In S [Tools.InterestRateRequestSchema; Tools2.InterestRateRequestSchema] ->
  parse S args = Ok out ->
  exists req members b,
    fst (calculateInterestRate h S fetch args) = [req]
    /\ method req = "POST"
    /\ body req = Some (VObj members)
    /\ keys members = ["product"; "type"; "discounts"]
    /\ lookup "product" members = get_opt out "product"
    /\ lookup "type" members = get_opt out "type"
    /\ lookup "discounts" members = JSON_stringify (get_opt out "discounts")
    /\ has_key "inactive" members = false
    /\ has_key "includeInactive" members = false
    /\ get_opt out "inactive" = VBool b
    /\ url req
       = (if b then interest_rate_endpoint ++ "?inactive=true"
          else interest_rate_endpoint)
    /\ (b = true -> index 0 "inactive=true" (url req) <> None)
    /\ (b = false -> index 0 "inactive" (url req) = None).
Proof.
  intros HS Hparse.
  destruct (interest_schemas S HS) as (products & types & ->).
  pose proof (proj1 (parse_valid _ _ _) Hparse) as Hv.
  apply interest_schema_valid in Hv.
  destruct Hv as (props & p & t & ds & b & -> & -> & _).
  unfold calculateInterestRate.
  rewrite (interest_try_run h _ fetch _ _ _ _ _ Hparse). cbv zeta.
  eexists. exists [("product", VStr p); ("type", VStr t);
                   ("discounts", JSON_stringify (VArr ds))]. exists b.
  split.
  { match goal with
    | |- context [try_catch (_, ?R) _] => destruct R
    end; reflexivity. }
  repeat split; try reflexivity.
  - intros ->. vm_compute. discriminate.
  - intros ->. vm_compute. reflexivity.
Qed.

Lemma interest_request_body_and_url_witness :
  exists req,
    fst (Tools2.calculateInterestRate sample_host
           (Fixtures.mockFetch Fixtures.mockApiResponse)
           (VObj [("product", VStr "WONING"); ("type", VStr "LINEAIR");
                  ("inactive", VBool true)]))
    = [req]
    /\ body req
       = Some (VObj [("product", VStr "WONING"); ("type", VStr "LINEAIR");
                     ("discounts", VArr [])])
    /\ url req = interest_rate_endpoint ++ "?inactive=true".
Proof.
  destruct
    (interest_request_body_and_url sample_host Tools2.InterestRateRequestSchema
       (Fixtures.mockFetch Fixtures.mockApiResponse)
       (VObj [("product", VStr "WONING"); ("type", VStr "LINEAIR");
              ("inactive", VBool true)])
       (VObj [("product", VStr "WONING"); ("type", VStr "LINEAIR");
              ("discounts", VArr []); ("inactive", VBool true)]))
    as (req & members & b & Hsent & _).
  - simpl. auto.
  - reflexivity.
  - exists req. split; [exact Hsent |].
    vm_compute in Hsent. inversion Hsent. split; reflexivity.
Defined.

(** ** No fault leaves a network adapter *)

Ltac bind_step E :=
  rewrite bind_lift in E;
  match type of E with
  | context [match ?r with Ok _ => _ | Throw _ => _ end] =>
      let R := fresh "R" in
      destruct r eqn:R; [| discriminate E]
  end.

Lemma interest_rate_success_shape (h : Host) (p t d i data doc : value) :
  interest_rate_success h p t d i data = Ok doc ->
  exists members, doc = VObj [("success", VBool true); ("data", VObj members)].
Proof.
  unfold interest_rate_success. intros H.
  repeat match type of H with
         | rbind ?r _ = Ok _ => destruct r; cbn [rbind] in H; [| discriminate H]
         end.
  inversion H. eauto.
Qed.

Lemma maximum_mortgage_success_shape (m p data doc : value) :
  maximum_mortgage_success m p data = Ok doc ->
  exists members, doc = VObj [("success", VBool true); ("data", VObj members)].
Proof.
  unfold maximum_mortgage_success. intros H.
  repeat match type of H with
         | rbind ?r _ = Ok _ => destruct r; cbn [rbind] in H; [| discriminate H]
         end.
  inversion H. eauto.
Qed.

(** A returning [try] block of the interest-rate adapter returns the
    text of a success document. *)
Lemma interest_try_ok (h : Host) (S : schema) (fetch : Fetch) (args : value)
    (sent : list HttpRequest) (a : CallToolResult) :
  calculateInterestRate_try h S fetch args = (sent, Ok a) ->
  exists p t d i data doc,
    interest_rate_success h p t d i data = Ok doc /\ a = text_result doc.
Proof.
  unfold calculateInterestRate_try. intros E.
  do 5 bind_step E.
  rewrite bind_call in E.
  match type of E with
  | context [match ?r with Ok _ => _ | Throw _ => _ end] =>
      destruct r as [response | e]; [| discriminate E]
  end.
  destruct (negb (Response.ok response)).
  - rewrite bind_lift in E.
    destruct (Response.text response); discriminate E.
  - do 2 bind_step E. inversion E. eauto 10.
Qed.

Lemma maximum_try_ok (h : Host) (fetch : Fetch) (args : value)
    (sent : list HttpRequest) (a : CallToolResult) :
  calculateMaximumMortgage_try h fetch args = (sent, Ok a) ->
  exists m p data doc,
    maximum_mortgage_success m p data = Ok doc /\ a = text_result doc.
Proof.
  unfold calculateMaximumMortgage_try. intros E.
  do 4 bind_step E.
  match type of E with
  | context [bind ?m _] => destruct m as [sent0 [url2 | e]] eqn:Eurl
  end; [| discriminate E].
  unfold bind at 1 in E. rewrite bind_call in E.
  match type of E with
  | context [match ?r with Ok _ => _ | Throw _ => _ end] =>
      destruct r as [response | e]; [| discriminate E]
  end.
  destruct (negb (Response.ok response)).
  - rewrite bind_lift in E.
    destruct (Response.text response); discriminate E.
  - do 2 bind_step E. inversion E. eauto 10.
Qed.

Lemma document_text_result (doc : value) :
  document (text_result doc) = Some (JSON_stringify doc).
Proof. reflexivity. Qed.

Lemma document_of_text_result (d doc : value) :
  document (text_result d) = Some doc -> doc = JSON_stringify d.
Proof.
  rewrite document_text_result. intros H.
  exact (f_equal (fun o => match o with Some x => x | None => doc end)
           (eq_sym H)).
Qed.

Lemma failure_document (h : Host) (prefix : string) (e : thrown) :
  document (failure h prefix e)
  = Some (VObj [("success", VBool false);
                ("error", VStr (prefix ++ error_text h e))]).
Proof. reflexivity. Qed.

(** [calculateInterestRate] always returns, and what it returns is a
    well-formed envelope; a fault of its [try] block becomes the failure
    document with the fault's message after the prefix. *)
Lemma calculateInterestRate_returns (h : Host) (S : schema) (fetch : Fetch)
    (args : value) :
  exists sent r doc,
    calculateInterestRate h S fetch args = (sent, Ok r)
    /\ document r = Some doc
    /\ well_formed_envelope doc = true
    /\ (forall e,
          snd (calculateInterestRate_try h S fetch args) = Throw e ->
          doc = VObj [("success", VBool false);
                      ("error",
                       VStr ("Failed to calculate interest rate: "
                             ++ error_text h e))]).
Proof.
  unfold calculateInterestRate.
  destruct (calculateInterestRate_try h S fetch args) as [sent [a | e]] eqn:E.
  - destruct (interest_try_ok _ _ _ _ _ _ E) as (p & t & d & i & data & doc & Hd & ->).
    destruct (interest_rate_success_shape _ _ _ _ _ _ _ Hd) as (members & ->).
    exists sent. eexists. eexists. split; [reflexivity |].
    split; [reflexivity |]. split; [reflexivity |].
    simpl. discriminate.
  - exists sent. eexists. eexists. simpl. rewrite app_nil_r.
    split; [reflexivity |]. split; [reflexivity |]. split; [reflexivity |].
    intros e' He'. inversion He'. reflexivity.
Qed.

Lemma calculateMaximumMortgage_returns (h : Host) (fetch : Fetch) (args : value) :
  exists sent r doc,
    calculateMaximumMortgage h fetch args = (sent, Ok r)
    /\ document r = Some doc
    /\ well_formed_envelope doc = true
    /\ (forall e,
          snd (calculateMaximumMortgage_try h fetch args) = Throw e ->
          doc = VObj [("success", VBool false);
                      ("error",
                       VStr ("Failed to calculate maximum mortgage: "
                             ++ error_text h e))]).
Proof.
  unfold calculateMaximumMortgage.
  destruct (calculateMaximumMortgage_try h fetch args) as [sent [a | e]] eqn:E.
  - destruct (maximum_try_ok _ _ _ _ _ E) as (m & p & data & doc & Hd & ->).
    destruct (maximum_mortgage_success_shape _ _ _ _ Hd) as (members & ->).
    exists sent. eexists. eexists. split; [reflexivity |].
    split; [reflexivity |]. split; [reflexivity |].
    simpl. discriminate.
  - exists sent. eexists. eexists. simpl. rewrite app_nil_r.
    split; [reflexivity |]. split; [reflexivity |]. split; [reflexivity |].
    intros e' He'. inversion He'. reflexivity.
Qed.

(** Arguments the schema refuses: the failure document carries zod's
    message, and no request has been issued. *)
Lemma calculateInterestRate_invalid (h : Host) (S : schema) (fetch : Fetch)
    (args : value) (issues : list ZodIssue) :
  safeParse S args = Invalid issues ->
  calculateInterestRate h S fetch args
  = ([], Ok (failure h "Failed to calculate interest rate: " (ZodError issues))).
Proof.
  intros H. unfold calculateInterestRate, calculateInterestRate_try, parse.
  rewrite H. reflexivity.
Qed.

Lemma calculateMaximumMortgage_invalid (h : Host) (fetch : Fetch)
    (args : value) (issues : list ZodIssue) :
  safeParse MaximumMortgageRequestSchema args = Invalid issues ->
  calculateMaximumMortgage h fetch args
  = ([], Ok (failure h "Failed to calculate maximum mortgage: " (ZodError issues))).
Proof.
  intros H. unfold calculateMaximumMortgage, calculateMaximumMortgage_try, parse.
  rewrite H. reflexivity.
Qed.

(** The three upstream faults of the interest-rate adapter, for arguments
    the schema lets through: a rejected [fetch], a response that is not ok,
    a body that is no JSON. *)
Lemma calculateInterestRate_upstream_faults (h : Host) (S : schema)
    (fetch : Fetch) (args out : value) :
  In S [Tools.InterestRateRequestSchema; Tools2.InterestRateRequestSchema] ->
  parse S args = Ok out ->
  exists req,
    fst (calculateInterestRate h S fetch args) = [req]
    /\ (forall e,
          fetch req = Throw e ->
          snd (calculateInterestRate h S fetch args)
          = Ok (failure h "Failed to calculate interest rate: " e))
    /\ (forall response errorText,
          fetch req = Ok response ->
          Response.ok response = false ->
          Response.text response = Ok errorText ->
          snd (calculateInterestRate h S fetch args)
          = Ok (failure h "Failed to calculate interest rate: "
                  (JsError
                     ("ABN AMRO API error ("
                      ++ Z_toString (Response.status response)
                      ++ "): " ++ errorText))))
    /\ (forall response e,
          fetch req = Ok response ->
          Response.ok response = true ->
          Response.json response = Throw e ->
          snd (calculateInterestRate h S fetch args)
          = Ok (failure h "Failed to calculate interest rate: " e)).
Proof.
  intros HS Hparse.
  destruct (interest_schemas S HS) as (products & types & ->).
  pose proof (proj1 (parse_valid _ _ _) Hparse) as Hv.
  apply interest_schema_valid in Hv.
  destruct Hv as (props & p & t & ds & b & -> & -> & _).
  unfold calculateInterestRate.
  rewrite (interest_try_run h _ fetch _ _ _ _ _ Hparse). cbv zeta.
  eexists. split; [| split; [| split]].
  - match goal with
    | |- context [try_catch (_, ?R) _] => destruct R
    end; reflexivity.
  - intros e He. rewrite He. reflexivity.
  - intros response errorText He Hok Ht. rewrite He. cbn [rbind].
    rewrite Hok, Ht. reflexivity.
  - intros response e He Hok Hj. rewrite He. cbn [rbind].
    rewrite Hok, Hj. reflexivity.
Qed.

(** ** The fixed-fact adapters *)

Lemma getMortageInterestRateDeduction_returns :
  exists r doc,
    Tools2.getMortageInterestRateDeduction = Ok r
    /\ document r = Some doc
    /\ well_formed_envelope doc = true
    /\ at_path doc ["data"; "deductionPercentage"] = VNum 37.48.
Proof.
  eexists. eexists. repeat split; reflexivity.
Qed.

Lemma getMaximumMortageNationalHomeGuarantee_returns :
  exists r doc,
    Tools2.getMaximumMortageNationalHomeGuarantee = Ok r
    /\ document r = Some doc
    /\ well_formed_envelope doc = true
    /\ at_path doc ["data"; "deductionPercentage"] = VNum 450000.
Proof.
  eexists. eexists. repeat split; reflexivity.
Qed.

Lemma house_price_valid (args out : value) :
  safeParse Tools2.HouseTaxQuotaRequestSchema args = Valid out ->
  exists props x,
    args = VObj props /\ lookup "housePrice" props = VNum x
    /\ (0 <=? x)%float = true /\ out = VObj [("housePrice", VNum x)].
Proof.
  unfold Tools2.HouseTaxQuotaRequestSchema. intros H.
  destruct args as [| | | | | | props]; try discriminate.
  rewrite safeParse_object in H.
  destruct (parse_members props _) as [is0 | out0] eqn:E; try discriminate.
  inversion H; subst out; clear H.
  apply parse_members_cons_valid in E. destruct E as (x & o & E1 & E & ->).
  simpl in E. inversion E; subst o; clear E.
  apply number_valid in E1. destruct E1 as (y & L & -> & Hy).
  exists props, y. auto.
Qed.

Lemma house_price_accepted (props : list (string * value)) (x : float) :
  lookup "housePrice" props = VNum x ->
  (0 <=? x)%float = true ->
  parse Tools2.HouseTaxQuotaRequestSchema (VObj props)
  = Ok (VObj [("housePrice", VNum x)]).
Proof.
  intros L Hx. unfold parse, Tools2.HouseTaxQuotaRequestSchema.
  rewrite safeParse_object. cbn [parse_members]. rewrite L.
  rewrite (number_accepts x Hx). reflexivity.
Qed.

(** A negative price never comes back as an envelope: the fault of
    [parse] leaves [getPropertyTransferTax]. *)
Lemma getPropertyTransferTax_negative (h : Host) (props : list (string * value))
    (x : float) :
  lookup "housePrice" props = VNum x ->
  (x <? 0)%float = true ->
  Tools2.getPropertyTransferTax h (VObj props)
  = Throw (ZodError [mkIssue too_small [Key "housePrice"]]).
Proof.
  intros L Hx.
  unfold Tools2.getPropertyTransferTax, parse, Tools2.HouseTaxQuotaRequestSchema.
  rewrite safeParse_object. cbn [parse_members]. rewrite L.
  rewrite (number_negative x Hx). reflexivity.
Qed.

(** Whatever the schema refuses is thrown, issues and all. *)
Lemma getPropertyTransferTax_invalid (h : Host) (args : value)
    (issues : list ZodIssue) :
  safeParse Tools2.HouseTaxQuotaRequestSchema args = Invalid issues ->
  Tools2.getPropertyTransferTax h args = Throw (ZodError issues).
Proof.
  intros H. unfold Tools2.getPropertyTransferTax, parse. rewrite H.
  reflexivity.
Qed.

(** C1 (the code departs from it).  On a negative [housePrice], and on
    arguments that are no object at all, [getPropertyTransferTax] returns
    no envelope: the [ZodError] of [parse], which no [try] surrounds, is
    thrown to the caller.  (The two network adapters and the two constant
    adapters always return a well-formed envelope:
    [calculateInterestRate_returns], [calculateMaximumMortgage_returns],
    [getMortageInterestRateDeduction_returns],
    [getMaximumMortageNationalHomeGuarantee_returns].) *)
Theorem getPropertyTransferTax_throws (h : Host) :
  Tools2.getPropertyTransferTax h (VObj [("housePrice", VNum (-1))])
  = Throw (ZodError [mkIssue too_small [Key "housePrice"]])
  /\ Tools2.getPropertyTransferTax h VUndefined
     = Throw (ZodError [mkIssue invalid_type []])
  /\ Tools2.getPropertyTransferTax h (VObj [("housePrice", VStr "600000")])
     = Throw (ZodError [mkIssue invalid_type [Key "housePrice"]]).
Proof.
  repeat split; reflexivity.
Qed.

(** ** The closed sets of the interest-rate schemas *)

Lemma string_mem_In (s : string) (l : list string) :
  string_mem s l = true <-> In s l.
Proof.
  unfold string_mem. rewrite existsb_exists. split.
  - intros (x & Hx & E). apply String.eqb_eq in E. subst x. exact Hx.
  - intros H. exists s. split; [exact H | apply String.eqb_refl].
Qed.

(** The wider schema (second tools module, and the registration of
    [src/index.ts]) lets every member of the two closed sets through. *)
Lemma wide_schema_accepts (p t : string) :
  In p ["BUDGET"; "WONING"] ->
  In t ["ANNUITAIR"; "LINEAIR"; "AFLOSSINGSVRIJ"] ->
  safeParse Tools2.InterestRateRequestSchema
    (VObj [("product", VStr p); ("type", VStr t)])
  = Valid (VObj [("product", VStr p); ("type", VStr t);
                 ("discounts", VArr []); ("inactive", VBool false)]).
Proof.
  intros Hp Ht. simpl in Hp, Ht.
  destruct Hp as [<- | [<- | []]];
    destruct Ht as [<- | [<- | [<- | []]]]; reflexivity.
Qed.

(** An interest-rate schema refuses whatever lies outside its two closed
    sets, and the adapter then answers without a request. *)
Lemma interest_schema_rejects (h : Host) (fetch : Fetch)
    (products types : list string) (props : list (string * value)) :
  (forall p, lookup "product" props = VStr p -> ~ In p products)
  \/ (forall t, lookup "type" props = VStr t -> ~ In t types) ->
  exists issues,
    safeParse (interest_schema products types) (VObj props) = Invalid issues
    /\ calculateInterestRate h (interest_schema products types) fetch (VObj props)
       = ([], Ok (failure h "Failed to calculate interest rate: "
                    (ZodError issues))).
Proof.
  intros Hout.
  destruct (safeParse (interest_schema products types) (VObj props))
    as [out | issues] eqn:E.
  - exfalso. apply interest_schema_valid in E.
    destruct E as (props' & p & t & ds & b & Hargs & _ & Lp & Mp & Lt & Mt & _).
    inversion Hargs; subst props'.
    apply string_mem_In in Mp. apply string_mem_In in Mt.
    destruct Hout as [Hp | Ht]; [exact (Hp p Lp Mp) | exact (Ht t Lt Mt)].
  - exists issues. split; [reflexivity |].
    apply calculateInterestRate_invalid. exact E.
Qed.

(** C2 (the code of [src/tools.ts] departs from it).  The schema of
    [src/tools.ts] lists [BUDGET] alone as product and [ANNUITAIR] alone as
    repayment type.  The product [WONING] and the repayment types
    [LINEAIR] and [AFLOSSINGSVRIJ], which the registration of the tool in
    [src/index.ts] and the schema of the second tools module accept, are
    answered by the adapter of [src/tools.ts] with a validation failure,
    without a request. *)
Theorem Tools_schema_refuses_registered_values (h : Host) (fetch : Fetch) :
  let woning := VObj [("product", VStr "WONING"); ("type", VStr "ANNUITAIR")] in
  let lineair := VObj [("product", VStr "BUDGET"); ("type", VStr "LINEAIR")] in
  let aflossingsvrij :=
    VObj [("product", VStr "BUDGET"); ("type", VStr "AFLOSSINGSVRIJ")] in
  let accepted (S : schema) :=
    (exists out, safeParse S woning = Valid out)
    /\ (exists out, safeParse S lineair = Valid out)
    /\ (exists out, safeParse S aflossingsvrij = Valid out) in
  accepted Index.calculate_interest_rate_shape
  /\ accepted Tools2.InterestRateRequestSchema
  /\ Tools.calculateInterestRate h fetch woning
     = ([], Ok (failure h "Failed to calculate interest rate: "
                  (ZodError [mkIssue invalid_enum_value [Key "product"]])))
  /\ Tools.calculateInterestRate h fetch lineair
     = ([], Ok (failure h "Failed to calculate interest rate: "
                  (ZodError [mkIssue invalid_enum_value [Key "type"]])))
  /\ Tools.calculateInterestRate h fetch aflossingsvrij
     = ([], Ok (failure h "Failed to calculate interest rate: "
                  (ZodError [mkIssue invalid_enum_value [Key "type"]]))).
Proof.
  cbv zeta.
  repeat split; try reflexivity; eexists; reflexivity.
Qed.

(** ** Property transfer tax *)

Lemma taxQuota_number (h : Host) (x : float) :
  Tools2.taxQuota h (VNum x)
  = if (525000 <? x)%float then VNum (x * 0.02) else VNum 0.
Proof. reflexivity. Qed.

Lemma property_transfer_tax_run (h : Host) (props : list (string * value))
    (x : float) :
  lookup "housePrice" props = VNum x ->
  (0 <=? x)%float = true ->
  Tools2.getPropertyTransferTax h (VObj props)
  = Ok (text_result
          (VObj
             [("success", VBool true);
              ("data",
               VObj
                 [("taxQuota", Tools2.taxQuota h (VNum x));
                  ("description",
                   VStr "Dutch property transfer tax for 2025: 2% of the purchase price for properties above €525,000")])])).
Proof.
  intros L Hx.
  unfold Tools2.getPropertyTransferTax.
  rewrite (house_price_accepted props x L Hx). reflexivity.
Qed.

(** C7.  For every [housePrice] that is a number and not negative the
    adapter returns a success envelope.  When the price exceeds 525000 the
    [taxQuota] of the envelope is the product [housePrice * 0.02], taken
    as the adapter takes it, in binary64, and written as [JSON.stringify]
    writes a number; otherwise it is 0. *)
Theorem property_transfer_tax (h : Host) (props : list (string * value))
    (x : float) :
  lookup "housePrice" props = VNum x ->
  (0 <=? x)%float = true ->
  exists r doc,
    Tools2.getPropertyTransferTax h (VObj props) = Ok r
    /\ document r = Some doc
    /\ well_formed_envelope doc = true
    /\ at_path doc ["success"] = VBool true
    /\ ((525000 <? x)%float = true ->
        at_path doc ["data"; "taxQuota"] = JSON_number (x * 0.02))
    /\ ((525000 <? x)%float = false ->
        at_path doc ["data"; "taxQuota"] = VNum 0).
Proof.
  intros L Hx.
  rewrite (property_transfer_tax_run h props x L Hx), taxQuota_number.
  eexists. eexists.
  split; [reflexivity |]. split; [reflexivity |].
  cbn [text text_result].
  split; [destruct (525000 <? x)%float; reflexivity |].
  split; [destruct (525000 <? x)%float; reflexivity |].
  rewrite document_data_member by reflexivity.
  cbn [lookup String.eqb Ascii.eqb Bool.eqb JSON_member].
  split; intros ->; reflexivity.
Qed.

Lemma property_transfer_tax_witness :
  exists r doc,
    Tools2.getPropertyTransferTax sample_host
      (VObj [("housePrice", VNum 600000)]) = Ok r
    /\ document r = Some doc
    /\ at_path doc ["success"] = VBool true
    /\ at_path doc ["data"; "taxQuota"] = VNum 12000.
Proof.
  destruct
    (property_transfer_tax sample_host [("housePrice", VNum 600000)] 600000)
    as (r & doc & Hr & Hd & _ & Hs & Ht & _).
  - reflexivity.
  - reflexivity.
  - exists r, doc. repeat split; try assumption.
    rewrite Ht by reflexivity. reflexivity.
Defined.

Example property_transfer_tax_at_threshold :
  Tools2.getPropertyTransferTax sample_host
    (VObj [("housePrice", VNum 525000)])
  = Ok (text_result
          (VObj
             [("success", VBool true);
              ("data",
               VObj
                 [("taxQuota", VNum 0);
                  ("description",
                   VStr "Dutch property transfer tax for 2025: 2% of the purchase price for properties above €525,000")])])).
Proof. reflexivity. Qed.

Example property_transfer_tax_above_threshold :
  Tools2.getPropertyTransferTax sample_host
    (VObj [("housePrice", VNum 600000)])
  = Ok (text_result
          (VObj
             [("success", VBool true);
              ("data",
               VObj
                 [("taxQuota", VNum 12000);
                  ("description",
                   VStr "Dutch property transfer tax for 2025: 2% of the purchase price for properties above €525,000")])])).
Proof. reflexivity. Qed.

(** The product is the binary64 one: 2% of 525015 is 10500.3, and the
    adapter returns the number next above it. *)
Example property_transfer_tax_rounds :
  Tools2.taxQuota sample_host (VNum 525015) = VNum 10500.300000000001
  /\ Tools2.taxQuota sample_host (VNum 525015) <> VNum 10500.3.
Proof.
  split; [reflexivity |].
  intros H. apply VNum_inj in H.
  apply (f_equal (fun y => Leibniz.eqb y 10500.3)) in H.
  vm_compute in H. discriminate H.
Qed.

(** ** Periods *)

Lemma get_defined (v : value) (k : string) :
  is_nullish v = false -> get v k = Ok (get_opt v k).
Proof.
  destruct v; simpl; intros H; try discriminate; reflexivity.
Qed.

(** The entry of a period that is neither [null] nor [undefined]: the
    five copied members, and the two rate members when their reading does
    not fault. *)
Lemma period_entry_defined (h : Host) (period : value) :
  is_nullish period = false ->
  period_entry h period
  = (let? nhg := dutchNationalMortgageGuarantee (get_opt period "rates") in
     let? ltv := lifeTimeValue (get_opt period "rates") in
     Ok (VObj
           [("duration", get_opt period "duration");
            ("durationInYears", durationInYears h (get_opt period "duration"));
            ("inactive", get_opt period "inactive");
            ("type", get_opt period "type");
            ("reflectionPeriod", get_opt period "reflectionPeriod");
            ("rates",
             VObj [("dutchNationalMortgageGuarantee", nhg);
                   ("lifeTimeValue", ltv)])])).
Proof.
  intros H. unfold period_entry.
  rewrite !(get_defined period _ H). reflexivity.
Qed.


Example durationInYears_120 (h : Host) :
  durationInYears h (VNum 120) = VNum 10.
Proof. reflexivity. Qed.

Example durationInYears_125 (h : Host) :
  durationInYears h (VNum 125) = VNum 10.4.
Proof. reflexivity. Qed.

(** The quotient and the product round as binary64 does.  For 10.2
    months [duration / 12 * 10] comes out just above 8.5 and is rounded to
    9 tenths; for 0.6 months it comes out just below 0.5 and is rounded to
    0. *)
Example durationInYears_rounds (h : Host) :
  durationInYears h (VNum 10.2) = VNum 0.9
  /\ durationInYears h (VNum 0.6) = VNum 0.
Proof. split; reflexivity. Qed.

(** ** Rates of a period *)

Lemma has_type_defined (tag : string) (r : value) :
  defined r -> has_type tag r = Ok (tagged tag r).
Proof.
  intros H. unfold has_type. rewrite (get_defined r _ H). reflexivity.
Qed.


Lemma rfind_none (tag : string) (items : list value) :
  Forall defined items ->
  Forall (fun x => tagged tag x = false) items ->
  rfind (has_type tag) items = Ok VUndefined.
Proof.
  intros Hd Hn.
  induction items as [| x items IH]; simpl; [reflexivity |].
  inversion Hd; subst. inversion Hn; subst.
  rewrite (has_type_defined tag x) by assumption.
  cbn [rbind]. rewrite H3. apply IH; assumption.
Qed.

Lemma rfilter_defined (tag : string) (items : list value) :
  Forall defined items ->
  rfilter (has_type tag) items = Ok (filter (tagged tag) items).
Proof.
  intros Hd.
  induction items as [| x items IH]; simpl; [reflexivity |].
  inversion Hd; subst.
  rewrite (has_type_defined tag x) by assumption.
  cbn [rbind]. rewrite IH by assumption. reflexivity.
Qed.

Lemma rmap_range_rate (items : list value) :
  Forall defined items ->
  rmap range_rate items = Ok (map reshaped items).
Proof.
  intros Hd.
  induction items as [| x items IH]; simpl; [reflexivity |].
  inversion Hd; subst.
  unfold range_rate at 1. rewrite !(get_defined x _ H1).
  cbn [rbind]. rewrite IH by assumption. reflexivity.
Qed.

Lemma Forall_filter {A : Type} (P : A -> Prop) (f : A -> bool) (l : list A) :
  Forall P l -> Forall P (filter f l).
Proof.
  intros H. induction H as [| x l Hx Hl IH]; simpl; [constructor |].
  destruct (f x); [constructor |]; assumption.
Qed.

Lemma lifeTimeValue_array (items : list value) :
  Forall defined items ->
  lifeTimeValue (VArr items)
  = Ok (VArr (map reshaped (filter (tagged "LTV") items))).
Proof.
  intros Hd. unfold lifeTimeValue.
  rewrite (rfilter_defined "LTV" items Hd). cbn [rbind].
  rewrite rmap_range_rate by (apply Forall_filter; exact Hd).
  reflexivity.
Qed.


(** Without an entry tagged [NHG] the member is [undefined]. *)
Lemma rates_without_NHG (h : Host) (period : value) (items : list value) :
  defined period ->
  get_opt period "rates" = VArr items ->
  Forall defined items ->
  Forall (fun x => tagged "NHG" x = false) items ->
  exists entry,
    period_entry h period = Ok entry
    /\ at_path entry ["rates"; "dutchNationalMortgageGuarantee"] = VUndefined.
Proof.
  intros Hp Hr Hd Hn.
  rewrite (period_entry_defined h period Hp), Hr.
  rewrite (lifeTimeValue_array _ Hd).
  unfold dutchNationalMortgageGuarantee.
  rewrite (rfind_none "NHG" items Hd Hn).
  cbn [rbind]. eexists. split; reflexivity.
Qed.

(** ** Success documents *)

Lemma interest_rate_success_defined (h : Host) (p t d i data : value) :
  defined data ->
  interest_rate_success h p t d i data
  = (let? ps := periods h data in
     Ok (VObj
           [("success", VBool true);
            ("data",
             VObj
               [("bridgingCredit",
                 VObj [("rate", get_opt data "overbruggingskrediet");
                       ("rateSheetDate", get_opt data "renteblad");
                       ("options", get_opt data "overbruggingskredieten")]);
                ("periods", ps);
                ("interestRate", get_opt data "interestRate");
                ("effectiveRate", get_opt data "effectiveRate");
                ("baseRate", get_opt data "baseRate");
                ("appliedDiscounts", get_opt data "appliedDiscounts");
                ("calculationDate", get_opt data "calculationDate");
                ("requestParameters",
                 VObj [("product", p); ("type", t); ("discounts", d);
                       ("inactive", i)])])])).
Proof.
  intros H. unfold interest_rate_success.
  rewrite !(get_defined data _ H). cbn [rbind].
  destruct (periods h data); reflexivity.
Qed.

Lemma periods_missing (h : Host) (data : value) :
  defined data ->
  is_nullish (get_opt data "periods") = true ->
  periods h data = Ok (VArr []).
Proof.
  intros Hd Hn. unfold periods. rewrite (get_defined data _ Hd). cbn [rbind].
  destruct (get_opt data "periods"); try discriminate; reflexivity.
Qed.

(** The run of the interest-rate adapter against an upstream that
    answers ok with a JSON payload. *)
Lemma interest_run_ok (h : Host) (S : schema) (fetch : Fetch)
    (args out : value) (response : Response.t) (data : value) :
  In S [Tools.InterestRateRequestSchema; Tools2.InterestRateRequestSchema] ->
  parse S args = Ok out ->
  (forall req, fetch req = Ok response) ->
  Response.ok response = true ->
  Response.json response = Ok data ->
  exists req,
    calculateInterestRate h S fetch args
    = try_catch
        ([req],
         let? doc :=
           interest_rate_success h (get_opt out "product") (get_opt out "type")
             (get_opt out "discounts") (get_opt out "inactive") data in
         Ok (text_result doc))
        (fun error => ret (failure h "Failed to calculate interest rate: " error)).
Proof.
  intros HS Hparse Hf Hok Hj.
  destruct (interest_schemas S HS) as (products & types & ->).
  pose proof (proj1 (parse_valid _ _ _) Hparse) as Hv.
  apply interest_schema_valid in Hv.
  destruct Hv as (props & p & t & ds & b & -> & -> & _).
  unfold calculateInterestRate.
  rewrite (interest_try_run h _ fetch _ _ _ _ _ Hparse). cbv zeta.
  rewrite Hf. cbn [rbind]. rewrite Hok, Hj. cbn [negb rbind].
  eexists. reflexivity.
Qed.

(** C4, as the code has it.  When the upstream payload has no [periods]
    (the member is missing or [null]), the adapter succeeds and
    [data.periods] is the empty list.  A period without [rates] is
    written without a fault, and its two rate members are [undefined]:
    the written [rates] is the empty object. *)
Theorem missing_periods_empty_missing_rates_undefined (h : Host) (S : schema)
    (fetch : Fetch) (args out : value) (response : Response.t) (data : value) :
  In S [Tools.InterestRateRequestSchema; Tools2.InterestRateRequestSchema] ->
  parse S args = Ok out ->
  (forall req, fetch req = Ok response) ->
  Response.ok response = true ->
  Response.json response = Ok data ->
  defined data ->
  is_nullish (get_opt data "periods") = true ->
  (exists sent r doc,
     calculateInterestRate h S fetch args = (sent, Ok r)
     /\ document r = Some doc
     /\ at_path doc ["success"] = VBool true
     /\ at_path doc ["data"; "periods"] = VArr [])
  /\ (forall period,
        defined period ->
        is_nullish (get_opt period "rates") = true ->
        exists entry,
          period_entry h period = Ok entry
          /\ at_path entry ["rates"; "dutchNationalMortgageGuarantee"]
             = VUndefined
          /\ at_path entry ["rates"; "lifeTimeValue"] = VUndefined
          /\ get_opt (JSON_stringify entry) "rates" = VObj []).
Proof.
  intros HS Hparse Hf Hok Hj Hd Hn. split.
  - destruct (interest_run_ok h S fetch args out response data HS Hparse Hf Hok Hj)
      as (req & ->).
    rewrite (interest_rate_success_defined h _ _ _ _ data Hd).
    rewrite (periods_missing h data Hd Hn). cbn [rbind try_catch].
    eexists. eexists. eexists. split; [reflexivity |].
    split; [reflexivity |]. split; [reflexivity |].
    cbn [text text_result].
    rewrite document_data_member by reflexivity. reflexivity.
  - intros period Hp Hr.
    rewrite (period_entry_defined h period Hp).
    destruct (get_opt period "rates"); try discriminate; cbn [rbind];
      (eexists; split; [reflexivity |];
       split; [reflexivity |]; split; [reflexivity |];
       rewrite (stringify_lookup "rates") by reflexivity; reflexivity).
Qed.

Lemma missing_periods_empty_missing_rates_undefined_witness :
  exists sent r doc,
    Tools.calculateInterestRate sample_host
      (Fixtures.mockFetch (VObj [("renteblad", VStr "2024-01-15")]))
      Fixtures.validRequest
    = (sent, Ok r)
    /\ document r = Some doc
    /\ at_path doc ["success"] = VBool true
    /\ at_path doc ["data"; "periods"] = VArr [].
Proof.
  apply
    (missing_periods_empty_missing_rates_undefined sample_host
       Tools.InterestRateRequestSchema
       (Fixtures.mockFetch (VObj [("renteblad", VStr "2024-01-15")]))
       Fixtures.validRequest Fixtures.validRequest
       (Response.mk true 200 (Throw (TypeError (NotAFunction VUndefined "text")))
          (Ok (VObj [("renteblad", VStr "2024-01-15")])))
       (VObj [("renteblad", VStr "2024-01-15")])).
  - simpl. auto.
  - reflexivity.
  - reflexivity.
  - reflexivity.
  - reflexivity.
  - reflexivity.
  - reflexivity.
Defined.

(** C4 as stated fails on a period without [rates]: the adapter writes
    the period with an empty [rates] object, so [lifeTimeValue] is absent
    from the document, and is not the empty list. *)
Lemma missing_rates_not_empty_list :
  exists sent r doc,
    Tools2.calculateInterestRate sample_host
      (Fixtures.mockFetch
         (VObj [("periods", VArr [VObj [("duration", VNum 120)]])]))
      Fixtures.validRequest
    = (sent, Ok r)
    /\ document r = Some doc
    /\ at_path doc ["success"] = VBool true
    /\ at_path doc ["data"; "periods"]
       = VArr [VObj [("duration", VNum 120);
                     ("durationInYears", VNum 10);
                     ("rates", VObj [])]]
    /\ at_path (VObj [("duration", VNum 120);
                      ("durationInYears", VNum 10);
                      ("rates", VObj [])]) ["rates"; "lifeTimeValue"]
       <> VArr [].
Proof.
  eexists. eexists. eexists.
  split; [reflexivity |]. split; [reflexivity |].
  split; [reflexivity |]. split; [reflexivity |].
  discriminate.
Qed.

(** ** Numbers in a query string *)

Lemma encode_uint (d : Decimal.uint) :
  URL.encode (NilEmpty.string_of_uint d) = NilEmpty.string_of_uint d.
Proof.
  induction d; simpl; try rewrite IHd; reflexivity.
Qed.

(** The decimal digits of an integer go through the serializer of the
    query unchanged. *)
Lemma encode_integer (z : Z) : URL.encode (Z_toString z) = Z_toString z.
Proof.
  unfold Z_toString.
  assert (Hu : forall d, URL.encode (NilZero.string_of_uint d)
                         = NilZero.string_of_uint d).
  { intros d. unfold NilZero.string_of_uint.
    destruct d; try reflexivity; apply encode_uint. }
  destruct (Z.to_int z) as [d | d]; simpl.
  - apply Hu.
  - change (URL.unreserved "-"%char) with true. cbv iota.
    rewrite Hu. reflexivity.
Qed.

(** [Number.prototype.toString] on a whole number up to 2^53. *)
Lemma Number_toString_integer (h : Host) (x : float) (z : Z) :
  integer_of x = Some z ->
  (Z.abs z <= 2 ^ 53)%Z ->
  Number_toString h x = Z_toString z.
Proof.
  intros Hx Hz. unfold Number_toString. rewrite Hx.
  apply Z.leb_le in Hz. rewrite Hz. reflexivity.
Qed.

(** ** The run of the maximum-mortgage adapter *)

(** A request the maximum-mortgage schema lets through: a non-negative
    [mainIncome], and a [partnerIncome] that is a non-negative number or is
    not there. *)
Lemma maximum_schema_valid (args out : value) :
  safeParse MaximumMortgageRequestSchema args = Valid out ->
  exists props q,
    args = VObj props
    /\ lookup "mainIncome" props = VNum q /\ (0 <=? q)%float = true
    /\ get_opt out "mainIncome" = VNum q
    /\ get_opt out "partnerIncome" = lookup "partnerIncome" props
    /\ (lookup "partnerIncome" props = VUndefined
        \/ exists p,
             lookup "partnerIncome" props = VNum p /\ (0 <=? p)%float = true)
    /\ JSON_stringify out
       = JSON_stringify
           (VObj [("mainIncome", VNum q);
                  ("partnerIncome", lookup "partnerIncome" props)]).
Proof.
  unfold MaximumMortgageRequestSchema. intros H.
  destruct args as [| | | | | | props]; try discriminate.
  rewrite safeParse_object in H.
  destruct (parse_members props _) as [is0 | out0] eqn:E; try discriminate.
  inversion H; subst out; clear H.
  apply parse_members_cons_valid in E. destruct E as (x1 & o1 & E1 & E & ->).
  apply parse_members_cons_valid in E. destruct E as (x2 & o2 & E2 & E & ->).
  simpl in E. inversion E; subst o2; clear E.
  apply number_valid in E1. destruct E1 as (q & L1 & -> & Hq).
  exists props, q. split; [reflexivity |]. split; [exact L1 |].
  split; [exact Hq |].
  destruct (lookup "partnerIncome" props) as [| | | p | | |] eqn:L2;
    try (simpl in E2; discriminate).
  - inversion E2; subst x2. unfold set_member.
    destruct (has_key "partnerIncome" props); repeat split; auto.
  - change (safeParse (z_optional (z_number [min 0])) (VNum p))
      with (safeParse (z_number [min 0]) (VNum p)) in E2.
    apply number_valid in E2. destruct E2 as (p' & Hp' & -> & Hle).
    apply VNum_inj in Hp'. subst p'.
    repeat split; auto.
    right. exists p. split; [reflexivity | exact Hle].
Qed.

(** The rest of either network adapter once the request is built. *)
Lemma request_run (fetch : Fetch) (req : HttpRequest)
    (success : value -> result value) :
  (response <- call fetch req ;;
   (if negb (Response.ok response)
    then
      errorText <- lift (Response.text response) ;;
      throw
        (JsError
           ("ABN AMRO API error (" ++ Z_toString (Response.status response)
            ++ "): " ++ errorText))
    else
      data <- lift (Response.json response) ;;
      doc <- lift (success data) ;;
      ret (text_result doc)))
  = ([req],
     let? response := fetch req in
     if negb (Response.ok response)
     then
       let? errorText := Response.text response in
       Throw
         (JsError
            ("ABN AMRO API error (" ++ Z_toString (Response.status response)
             ++ "): " ++ errorText))
     else
       let? data := Response.json response in
       let? doc := success data in
       Ok (text_result doc)).
Proof.
  rewrite bind_call.
  destruct (fetch req) as [response | e]; [| reflexivity].
  cbn [rbind].
  destruct (negb (Response.ok response)).
  - rewrite bind_lift. destruct (Response.text response); reflexivity.
  - rewrite bind_lift.
    destruct (Response.json response) as [data | e]; [| reflexivity].
    rewrite bind_lift. cbn [rbind].
    destruct (success data); reflexivity.
Qed.

Lemma maximum_url_main (s : string) :
  URL.toString (URL.append (URL.new maximum_mortgage_endpoint) "mainIncome" s)
  = maximum_mortgage_endpoint ++ "?mainIncome=" ++ URL.encode s.
Proof.
  unfold URL.toString, URL.query.
  cbn [URL.searchParams URL.append URL.new URL.base app URL.serialize].
  change (URL.encode "mainIncome") with "mainIncome".
  reflexivity.
Qed.

Lemma maximum_url_both (s s' : string) :
  URL.toString
    (URL.append
       (URL.append (URL.new maximum_mortgage_endpoint) "mainIncome" s)
       "partnerIncome" s')
  = maximum_mortgage_endpoint ++ "?mainIncome=" ++ URL.encode s
    ++ "&partnerIncome=" ++ URL.encode s'.
Proof.
  unfold URL.toString, URL.query.
  cbn [URL.searchParams URL.append URL.new URL.base app URL.serialize].
  change (URL.encode "mainIncome") with "mainIncome".
  change (URL.encode "partnerIncome") with "partnerIncome".
  reflexivity.
Qed.

Lemma maximum_try_run (h : Host) (fetch : Fetch) (args out : value) :
  parse MaximumMortgageRequestSchema args = Ok out ->
  let req :=
    mkRequest
      (maximum_mortgage_url h (get_opt out "mainIncome")
         (get_opt out "partnerIncome"))
      "GET" [("Accept", "application/json")] None in
  calculateMaximumMortgage_try h fetch args
  = ([req],
     let? response := fetch req in
     if negb (Response.ok response)
     then
       let? errorText := Response.text response in
       Throw
         (JsError
            ("ABN AMRO API error (" ++ Z_toString (Response.status response)
             ++ "): " ++ errorText))
     else
       let? data := Response.json response in
       let? doc :=
         maximum_mortgage_success (get_opt out "mainIncome")
           (get_opt out "partnerIncome") data in
       Ok (text_result doc)).
Proof.
  intros Hparse req. unfold calculateMaximumMortgage_try.
  rewrite Hparse.
  pose proof (proj1 (parse_valid _ _ _) Hparse) as Hv.
  apply maximum_schema_valid in Hv.
  destruct Hv as (props & q & _ & _ & _ & Hm & Hp & Hcase & _).
  assert (Hout : is_nullish out = false).
  { destruct out; try discriminate; reflexivity. }
  rewrite bind_lift. cbv beta iota.
  rewrite (get_defined out _ Hout), bind_lift. cbv beta iota.
  rewrite (get_defined out _ Hout), bind_lift. cbv beta iota.
  subst req. rewrite Hm, Hp.
  cbn [toString]. rewrite bind_lift. cbv beta iota.
  destruct Hcase as [Hu | (p & Hn & _)].
  - rewrite Hu. cbv beta iota.
    change (ret ?u) with (lift (Ok u)). rewrite bind_lift. cbv beta iota.
    rewrite maximum_url_main.
    apply (request_run fetch _ (maximum_mortgage_success (VNum q) VUndefined)).
  - rewrite Hn. cbv beta iota. cbn [toString].
    rewrite bind_lift. cbv beta iota.
    change (ret ?u) with (lift (Ok u)). rewrite bind_lift. cbv beta iota.
    rewrite maximum_url_both.
    apply (request_run fetch _ (maximum_mortgage_success (VNum q) (VNum p))).
Qed.

Lemma query_value_integer (h : Host) (x : float) (z : Z) :
  integer_of x = Some z ->
  (Z.abs z <= 2 ^ 53)%Z ->
  URL.encode (Number_toString h x) = Z_toString z.
Proof.
  intros Hx Hz. rewrite (Number_toString_integer h x z Hx Hz).
  apply encode_integer.
Qed.

(** C8.  For every request the maximum-mortgage schema lets through, the
    adapter issues one GET request to the endpoint with a query that
    starts with [mainIncome=] followed by the income as
    [Number.prototype.toString] writes it (for an income that is a whole
    number up to 2^53, its decimal digits); [&partnerIncome=] and the
    partner's income follow exactly when the arguments carry a
    [partnerIncome], and otherwise the query ends after the main income. *)
Theorem maximum_mortgage_query (h : Host) (fetch : Fetch) (args out : value) :
  parse MaximumMortgageRequestSchema args = Ok out ->
  exists req q,
    fst (calculateMaximumMortgage h fetch args) = [req]
    /\ method req = "GET"
    /\ get_opt args "mainIncome" = VNum q
    /\ (forall z,
          integer_of q = Some z -> (Z.abs z <= 2 ^ 53)%Z ->
          URL.encode (Number_toString h q) = Z_toString z)
    /\ (get_opt args "partnerIncome" = VUndefined
        /\ url req
           = maximum_mortgage_endpoint ++ "?mainIncome="
             ++ URL.encode (Number_toString h q)
        \/ exists p,
             get_opt args "partnerIncome" = VNum p
             /\ url req
                = maximum_mortgage_endpoint ++ "?mainIncome="
                  ++ URL.encode (Number_toString h q)
                  ++ "&partnerIncome=" ++ URL.encode (Number_toString h p)
             /\ (forall z,
                   integer_of p = Some z -> (Z.abs z <= 2 ^ 53)%Z ->
                   URL.encode (Number_toString h p) = Z_toString z)).
Proof.
  intros Hparse.
  pose proof (proj1 (parse_valid _ _ _) Hparse) as Hv.
  apply maximum_schema_valid in Hv.
  destruct Hv as (props & q & -> & L1 & _ & Hm & Hp & Hcase & _).
  unfold calculateMaximumMortgage.
  rewrite (maximum_try_run h fetch _ _ Hparse). cbv zeta.
  rewrite Hm, Hp.
  eexists. exists q. split.
  { match goal with
    | |- context [try_catch (_, ?R) _] => destruct R
    end; reflexivity. }
  split; [reflexivity |]. split; [exact L1 |].
  split; [intros z; apply query_value_integer |].
  cbn [get_opt].
  destruct Hcase as [Hu | (p & Hn & _)].
  - left. rewrite Hu. split; reflexivity.
  - right. exists p. rewrite Hn. split; [reflexivity |].
    split; [reflexivity |]. intros z. apply query_value_integer.
Qed.

Lemma maximum_mortgage_query_witness :
  exists req,
    fst (Tools.calculateMaximumMortgage sample_host
           (Fixtures.mockFetch Fixtures.mortgageResponse)
           Fixtures.mortgageRequest)
    = [req]
    /\ url req
       = maximum_mortgage_endpoint ++ "?mainIncome=50000&partnerIncome=30000".
Proof.
  destruct
    (maximum_mortgage_query sample_host
       (Fixtures.mockFetch Fixtures.mortgageResponse)
       Fixtures.mortgageRequest Fixtures.mortgageRequest)
    as (req & q & Hsent & _).
  - reflexivity.
  - exists req. split; [exact Hsent |].
    vm_compute in Hsent. inversion Hsent. reflexivity.
Defined.

Example maximum_mortgage_query_without_partner :
  fst (Tools.calculateMaximumMortgage sample_host
         (Fixtures.mockFetch Fixtures.mortgageResponse)
         (VObj [("mainIncome", VNum 50000)]))
  = [mkRequest (maximum_mortgage_endpoint ++ "?mainIncome=50000") "GET"
       [("Accept", "application/json")] None].
Proof. reflexivity. Qed.

(** ** The success document of the maximum-mortgage adapter *)

Lemma maximum_mortgage_success_defined (m p data : value) :
  defined data ->
  maximum_mortgage_success m p data
  = Ok (VObj
          [("success", VBool true);
           ("data",
            VObj
              [("maximumMortgage",
                js_or (at_path data ["value"; "maximumMortgage"]) VNull);
               ("monthlyPayment",
                js_or (at_path data ["value"; "monthlyPayment"]) VNull);
               ("interest", js_or (at_path data ["value"; "interest"]) VNull);
               ("messages", get_opt data "messages");
               ("requestParameters",
                VObj [("mainIncome", m); ("partnerIncome", p)])])]).
Proof.
  intros H. unfold maximum_mortgage_success.
  rewrite !(get_defined data _ H). reflexivity.
Qed.

Lemma maximum_mortgage_success_ok (m p data doc : value) :
  maximum_mortgage_success m p data = Ok doc -> defined data.
Proof.
  unfold maximum_mortgage_success, defined.
  destruct data; simpl; intros H; try discriminate; reflexivity.
Qed.

Lemma maximum_mortgage_success_nullish (m p data : value) :
  is_nullish data = true ->
  exists e, maximum_mortgage_success m p data = Throw e.
Proof.
  destruct data; simpl; intros H; try discriminate; eexists; reflexivity.
Qed.

(** [x || null] as written: the value itself when it is truthy, [null]
    otherwise. *)
Lemma or_null_written (x : value) :
  JSON_member (js_or x VNull) = if truthy x then JSON_stringify x else VNull.
Proof.
  unfold js_or. destruct (truthy x) eqn:E; [| reflexivity].
  destruct x; try reflexivity; discriminate.
Qed.

(** A truthy value that is written as a number is not written 0. *)
Lemma truthy_not_zero (x : value) (y : float) :
  truthy x = true -> JSON_stringify x = VNum y -> (y =? 0)%float = false.
Proof.
  destruct x as [| | b | x | s | items | props]; try discriminate.
  cbn [truthy JSON_stringify]. unfold JSON_number. intros Ht.
  apply negb_true_iff, orb_false_iff in Ht. destruct Ht as [Hz _].
  rewrite Hz. destruct (is_finite x); [| discriminate].
  intros H. apply VNum_inj in H. subst y. exact Hz.
Qed.

(** The three extracted members of a written success document. *)
Lemma maximum_fields_written (m p data : value) (field : string) :
  In field value_fields ->
  at_path
    (JSON_stringify
       (VObj
          [("success", VBool true);
           ("data",
            VObj
              [("maximumMortgage",
                js_or (at_path data ["value"; "maximumMortgage"]) VNull);
               ("monthlyPayment",
                js_or (at_path data ["value"; "monthlyPayment"]) VNull);
               ("interest", js_or (at_path data ["value"; "interest"]) VNull);
               ("messages", get_opt data "messages");
               ("requestParameters",
                VObj [("mainIncome", m); ("partnerIncome", p)])])]))
    ["data"; field]
  = (if truthy (at_path data ["value"; field])
     then JSON_stringify (at_path data ["value"; field])
     else VNull).
Proof.
  intros Hf. rewrite document_data_member by reflexivity.
  destruct Hf as [<- | [<- | [<- | []]]];
    cbn [lookup String.eqb Ascii.eqb Bool.eqb]; apply or_null_written.
Qed.

(** C5, as the code has it.  For an upstream answer that is ok and whose
    JSON payload is not [null], the adapter returns a success envelope in
    which each of [maximumMortgage], [monthlyPayment] and [interest] is the
    provider's [value] member of that name when it is there and truthy, and
    [null] when it is missing or falsy ([0], the empty string, [false],
    [null]); [messages] is the provider's member, and [requestParameters]
    is the validated request. *)
Theorem maximum_mortgage_extracts_truthy (h : Host) (fetch : Fetch)
    (args out : value) (response : Response.t) (data : value) :
  parse MaximumMortgageRequestSchema args = Ok out ->
  (forall req, fetch req = Ok response) ->
  Response.ok response = true ->
  Response.json response = Ok data ->
  defined data ->
  exists sent r doc,
    calculateMaximumMortgage h fetch args = (sent, Ok r)
    /\ document r = Some doc
    /\ at_path doc ["success"] = VBool true
    /\ (forall field,
          In field value_fields ->
          at_path doc ["data"; field]
          = (if truthy (at_path data ["value"; field])
             then JSON_stringify (at_path data ["value"; field])
             else VNull))
    /\ at_path doc ["data"; "messages"] = JSON_member (get_opt data "messages")
    /\ at_path doc ["data"; "requestParameters"] = JSON_stringify out.
Proof.
  intros Hparse Hf Hok Hj Hd.
  unfold calculateMaximumMortgage.
  rewrite (maximum_try_run h fetch _ _ Hparse). cbv zeta.
  rewrite Hf. cbn [rbind]. rewrite Hok, Hj. cbn [negb rbind].
  rewrite (maximum_mortgage_success_defined _ _ data Hd).
  cbn [rbind try_catch].
  eexists. eexists. eexists. split; [reflexivity |].
  split; [reflexivity |]. split; [reflexivity |].
  cbn [text text_result]. split; [| split].
  - intros field Hfield. apply maximum_fields_written. exact Hfield.
  - rewrite document_data_member by reflexivity. reflexivity.
  - rewrite document_data_member by reflexivity.
    cbn [lookup String.eqb Ascii.eqb Bool.eqb JSON_member].
    pose proof (proj1 (parse_valid _ _ _) Hparse) as Hv.
    apply maximum_schema_valid in Hv.
    destruct Hv as (props & q & _ & _ & _ & Hm & Hp & _ & Hw).
    rewrite Hm, Hp, Hw. reflexivity.
Qed.

Lemma maximum_mortgage_extracts_truthy_witness :
  exists sent r doc,
    Tools.calculateMaximumMortgage sample_host
      (Fixtures.mockFetch Fixtures.mortgageResponse) Fixtures.mortgageRequest
    = (sent, Ok r)
    /\ document r = Some doc
    /\ at_path doc ["data"; "maximumMortgage"] = VNum 280000
    /\ at_path doc ["data"; "monthlyPayment"] = VNum 1250
    /\ at_path doc ["data"; "interest"] = VNum 3.5.
Proof.
  destruct
    (maximum_mortgage_extracts_truthy sample_host
       (Fixtures.mockFetch Fixtures.mortgageResponse)
       Fixtures.mortgageRequest Fixtures.mortgageRequest
       (Response.mk true 200 (Throw (TypeError (NotAFunction VUndefined "text")))
          (Ok Fixtures.mortgageResponse))
       Fixtures.mortgageResponse)
    as (sent & r & doc & Hr & Hd & _ & Hfields & _); try reflexivity.
  exists sent, r, doc. split; [exact Hr |]. split; [exact Hd |].
  repeat split; rewrite Hfields; simpl; auto.
Defined.

(** C5 as stated fails on a provider value that is there and is 0: the
    envelope carries [null], not the provider's value. *)
Lemma maximum_mortgage_zero_is_not_kept :
  exists sent r doc,
    Tools.calculateMaximumMortgage sample_host
      (Fixtures.mockFetch
         (VObj [("value",
                 VObj [("maximumMortgage", VNum 0);
                       ("monthlyPayment", VNum 1250);
                       ("interest", VNum 3.5)]);
                ("messages", VArr [])]))
      Fixtures.mortgageRequest
    = (sent, Ok r)
    /\ document r = Some doc
    /\ at_path doc ["success"] = VBool true
    /\ at_path doc ["data"; "maximumMortgage"] = VNull
    /\ at_path doc ["data"; "maximumMortgage"] <> VNum 0.
Proof.
  eexists. eexists. eexists.
  split; [reflexivity |]. split; [reflexivity |].
  split; [reflexivity |]. split; [reflexivity |].
  discriminate.
Qed.

(** C10.  Whenever the maximum-mortgage adapter returns a success
    envelope, it does so on an upstream answer that was ok with a JSON
    payload, and for each of [maximumMortgage], [monthlyPayment] and
    [interest]: a provider value that is falsy (the number 0 in
    particular) is written [null], exactly as a missing one is, and the
    written member is never the number 0. *)
Theorem maximum_mortgage_never_zero (h : Host) (fetch : Fetch) (args : value)
    (sent : list HttpRequest) (r : CallToolResult) (doc : value) :
  calculateMaximumMortgage h fetch args = (sent, Ok r) ->
  document r = Some doc ->
  at_path doc ["success"] = VBool true ->
  exists req response data,
    sent = [req]
    /\ fetch req = Ok response
    /\ Response.ok response = true
    /\ Response.json response = Ok data
    /\ forall field,
         In field value_fields ->
         (truthy (at_path data ["value"; field]) = false ->
          at_path doc ["data"; field] = VNull)
         /\ (forall q,
               at_path doc ["data"; field] = VNum q -> (q =? 0)%float = false).
Proof.
  intros Hrun Hdoc Hs.
  destruct (safeParse MaximumMortgageRequestSchema args) as [out | issues] eqn:E.
  2:{ rewrite (calculateMaximumMortgage_invalid h fetch args issues E) in Hrun.
      inversion Hrun; subst. inversion Hdoc; subst. discriminate Hs. }
  apply parse_valid in E.
  unfold calculateMaximumMortgage in Hrun.
  rewrite (maximum_try_run h fetch _ _ E) in Hrun. cbv zeta in Hrun.
  match type of Hrun with
  | context [fetch ?x] => set (req := x) in *
  end.
  exists req.
  destruct (fetch req) as [response | e] eqn:Ef.
  2:{ inversion Hrun; subst. inversion Hdoc; subst. discriminate Hs. }
  cbn [rbind] in Hrun.
  destruct (Response.ok response) eqn:Eok; cbn [negb] in Hrun.
  2:{ destruct (Response.text response);
      inversion Hrun; subst; inversion Hdoc; subst; discriminate Hs. }
  destruct (Response.json response) as [data | e] eqn:Ej.
  2:{ inversion Hrun; subst. inversion Hdoc; subst. discriminate Hs. }
  cbn [rbind] in Hrun.
  destruct (is_nullish data) eqn:Hdef.
  { destruct (maximum_mortgage_success_nullish (get_opt out "mainIncome")
                (get_opt out "partnerIncome") data Hdef) as (e & Ee).
    rewrite Ee in Hrun.
    inversion Hrun; subst. inversion Hdoc; subst. discriminate Hs. }
  rewrite (maximum_mortgage_success_defined _ _ data Hdef) in Hrun.
  cbn [rbind try_catch] in Hrun.
  injection Hrun as Hsent Hr. subst sent r.
  apply document_of_text_result in Hdoc. subst doc.
  exists response, data.
  split; [reflexivity |]. split; [reflexivity |]. split; [exact Eok |].
  split; [exact Ej |].
  intros field Hfield.
  pose proof (maximum_fields_written (get_opt out "mainIncome")
                (get_opt out "partnerIncome") data field Hfield) as Hw.
  cbn [at_path] in Hw |- *. rewrite Hw. clear Hw. split.
  - intros Hfalsy. rewrite Hfalsy. reflexivity.
  - intros q Hq.
    destruct (truthy (get_opt (get_opt data "value") field)) eqn:Et;
      [| discriminate Hq].
    exact (truthy_not_zero _ q Et Hq).
Qed.

Lemma maximum_mortgage_never_zero_witness :
  exists sent r doc,
    Tools.calculateMaximumMortgage sample_host
      (Fixtures.mockFetch
         (VObj [("value",
                 VObj [("maximumMortgage", VNum 0);
                       ("monthlyPayment", VStr "");
                       ("interest", VBool false)])]))
      Fixtures.mortgageRequest
    = (sent, Ok r)
    /\ document r = Some doc
    /\ at_path doc ["data"; "maximumMortgage"] = VNull
    /\ at_path doc ["data"; "monthlyPayment"] = VNull
    /\ at_path doc ["data"; "interest"] = VNull
    /\ forall field q,
         In field value_fields -> at_path doc ["data"; field] = VNum q ->
         (q =? 0)%float = false.
Proof.
  eexists. eexists. eexists.
  split; [reflexivity |]. split; [reflexivity |].
  split; [reflexivity |]. split; [reflexivity |]. split; [reflexivity |].
  intros field q Hf.
  destruct
    (maximum_mortgage_never_zero sample_host
       (Fixtures.mockFetch
          (VObj [("value",
                  VObj [("maximumMortgage", VNum 0);
                        ("monthlyPayment", VStr "");
                        ("interest", VBool false)])]))
       Fixtures.mortgageRequest _ _ _ eq_refl eq_refl eq_refl)
    as (req & response & data & _ & _ & _ & _ & Hfields).
  exact (proj2 (Hfields field Hf) q).
Defined.

(** ** The test suite of the repository, run on the model *)

Module Tests.

Import Fixtures.

(** [should successfully calculate interest rate with valid request]. *)
Example interest_rate_valid_request :
  let run :=
    Tools.calculateInterestRate sample_host (mockFetch mockApiResponse)
      validRequest in
  fst run
  = [mkRequest interest_rate_endpoint "POST"
       [("Content-Type", "application/json")]
       (Some (VObj [("product", VStr "BUDGET");
                    ("type", VStr "ANNUITAIR");
                    ("discounts", VArr [VObj [("type", VStr "BANK_ACCOUNT")]])]))]
  /\ content_length run = Some 1%nat
  /\ read run ["success"] = Some (VBool true)
  /\ read run ["data"; "bridgingCredit"; "rate"] = Some (VNum 3.5)
  /\ option_map items_length (read run ["data"; "periods"]) = Some (Some 1%nat)
  /\ option_map (fun ps => get_opt (item ps 0) "durationInYears")
       (read run ["data"; "periods"])
     = Some (VNum 10)
  /\ read run ["data"; "requestParameters"] = Some validRequest.
Proof.
  vm_compute. repeat split.
Qed.

(** [should successfully calculate maximum mortgage with valid request]. *)
Example maximum_mortgage_valid_request :
  let run :=
    Tools.calculateMaximumMortgage sample_host (mockFetch mortgageResponse)
      mortgageRequest in
  fst run
  = [mkRequest
       (maximum_mortgage_endpoint ++ "?mainIncome=50000&partnerIncome=30000")
       "GET" [("Accept", "application/json")] None]
  /\ content_length run = Some 1%nat
  /\ read run ["success"] = Some (VBool true)
  /\ read run ["data"; "maximumMortgage"] = Some (VNum 280000)
  /\ read run ["data"; "monthlyPayment"] = Some (VNum 1250)
  /\ read run ["data"; "interest"] = Some (VNum 3.5)
  /\ read run ["data"; "messages"]
     = Some (VArr [VStr "Calculation completed successfully"])
  /\ read run ["data"; "requestParameters"] = Some mortgageRequest.
Proof.
  vm_compute. repeat split.
Qed.

(** An upstream answer that is not ok: the status and the body text are
    in the failure message. *)
Example interest_rate_upstream_503 :
  let run :=
    Tools.calculateInterestRate sample_host
      (fun _ => Ok (Response.mk false 503 (Ok "Service Unavailable")
                      (Throw (JsError "Unexpected token S in JSON"))))
      validRequest in
  read run ["success"] = Some (VBool false)
  /\ read run ["error"]
     = Some (VStr "Failed to calculate interest rate: ABN AMRO API error (503): Service Unavailable").
Proof.
  vm_compute. repeat split.
Qed.

End Tests.

(** * Further properties of the adapters *)

(** ** Requests and envelopes *)

Lemma try_catch_sent {A : Type} (m : M A) (f : thrown -> A) :
  fst (try_catch m (fun e => ret (f e))) = fst m.
Proof.
  destruct m as [sent [a | e]]; simpl; rewrite ?app_nil_r; reflexivity.
Qed.

Lemma request_sent (fetch : Fetch) (req : HttpRequest)
    (success : value -> result value) :
  fst (response <- call fetch req ;;
       (if negb (Response.ok response)
        then
          errorText <- lift (Response.text response) ;;
          throw
            (JsError
               ("ABN AMRO API error (" ++ Z_toString (Response.status response)
                ++ "): " ++ errorText))
        else
          data <- lift (Response.json response) ;;
          doc <- lift (success data) ;;
          ret (text_result doc)))
  = [req].
Proof.
  rewrite request_run. reflexivity.
Qed.

Lemma interest_try_sent (h : Host) (S : schema) (fetch : Fetch) (args : value) :
  (List.length (fst (calculateInterestRate_try h S fetch args)) <= 1)%nat.
Proof.
  unfold calculateInterestRate_try.
  do 5 (rewrite bind_lift;
        match goal with
        | |- context [match ?r with Ok _ => _ | Throw _ => _ end] =>
            destruct r; [| simpl; lia]
        end).
  rewrite request_sent. simpl. lia.
Qed.

Lemma maximum_try_sent (h : Host) (fetch : Fetch) (args : value) :
  (List.length (fst (calculateMaximumMortgage_try h fetch args)) <= 1)%nat.
Proof.
  unfold calculateMaximumMortgage_try.
  do 4 (rewrite bind_lift;
        match goal with
        | |- context [match ?r with Ok _ => _ | Throw _ => _ end] =>
            destruct r; [| simpl; lia]
        end).
  match goal with
  | |- context [bind ?m _] =>
      assert (Hm : (exists u, m = ([], Ok u)) \/ (exists e, m = ([], Throw e)))
  end.
  { match goal with
    | |- context [match ?v with VUndefined => _ | _ => _ end] => destruct v
    end; try (left; eexists; reflexivity);
    rewrite bind_lift;
    match goal with
    | |- context [match ?r with Ok _ => _ | Throw _ => _ end] =>
        destruct r; [left | right]; eexists; reflexivity
    end. }
  destruct Hm as [(u & ->) | (e & ->)].
  - change (@pair (list HttpRequest) (result URL.t) [] (Ok u))
      with (lift (Ok u)).
    rewrite bind_lift, request_sent. simpl. lia.
  - simpl. lia.
Qed.

(** X1.  Whatever the arguments, the schema and the upstream do,
    [calculateInterestRate] returns (it never throws), what it returns is
    one text block holding a well-formed envelope, and it has issued at
    most one request. *)
Theorem interest_rate_always_envelope (h : Host) (S : schema) (fetch : Fetch)
    (args : value) :
  exists sent r doc,
    calculateInterestRate h S fetch args = (sent, Ok r)
    /\ document r = Some doc
    /\ well_formed_envelope doc = true
    /\ (List.length sent <= 1)%nat.
Proof.
  destruct (calculateInterestRate_returns h S fetch args)
    as (sent & r & doc & Hrun & Hdoc & Hwf & _).
  exists sent, r, doc. repeat split; try assumption.
  pose proof (interest_try_sent h S fetch args) as Hlen.
  unfold calculateInterestRate in Hrun.
  rewrite <- (try_catch_sent (calculateInterestRate_try h S fetch args)
                (failure h "Failed to calculate interest rate: ")) in Hlen.
  rewrite Hrun in Hlen. exact Hlen.
Qed.

(** X2.  Whatever the arguments and the upstream do,
    [calculateMaximumMortgage] returns (it never throws), what it returns
    is one text block holding a well-formed envelope, and it has issued at
    most one request. *)
Theorem maximum_mortgage_always_envelope (h : Host) (fetch : Fetch) (args : value) :
  exists sent r doc,
    calculateMaximumMortgage h fetch args = (sent, Ok r)
    /\ document r = Some doc
    /\ well_formed_envelope doc = true
    /\ (List.length sent <= 1)%nat.
Proof.
  destruct (calculateMaximumMortgage_returns h fetch args)
    as (sent & r & doc & Hrun & Hdoc & Hwf & _).
  exists sent, r, doc. repeat split; try assumption.
  pose proof (maximum_try_sent h fetch args) as Hlen.
  unfold calculateMaximumMortgage in Hrun.
  rewrite <- (try_catch_sent (calculateMaximumMortgage_try h fetch args)
                (failure h "Failed to calculate maximum mortgage: ")) in Hlen.
  rewrite Hrun in Hlen. exact Hlen.
Qed.

(** X3.  [calculateInterestRate] validates before it touches the
    network: arguments the schema refuses are answered with the failure
    envelope carrying zod's message and no request at all, and arguments
    the schema lets through lead to exactly one request. *)
Theorem interest_rate_request_iff_valid (h : Host) (S : schema) (fetch : Fetch)
    (args : value) :
  In S [Tools.InterestRateRequestSchema; Tools2.InterestRateRequestSchema] ->
  (forall issues,
     safeParse S args = Invalid issues ->
     calculateInterestRate h S fetch args
     = ([], Ok (failure h "Failed to calculate interest rate: "
                  (ZodError issues))))
  /\ (forall out,
        safeParse S args = Valid out ->
        exists req, fst (calculateInterestRate h S fetch args) = [req]).
Proof.
  intros HS. split.
  - intros issues H. apply calculateInterestRate_invalid. exact H.
  - intros out Hv. apply parse_valid in Hv.
    destruct (interest_schemas S HS) as (products & types & ->).
    pose proof (proj1 (parse_valid _ _ _) Hv) as Hshape.
    apply interest_schema_valid in Hshape.
    destruct Hshape as (props & p & t & ds & b & -> & -> & _).
    unfold calculateInterestRate.
    rewrite (interest_try_run h _ fetch _ _ _ _ _ Hv). cbv zeta.
    eexists. rewrite try_catch_sent. reflexivity.
Qed.

Lemma interest_rate_request_iff_valid_witness :
  Tools2.calculateInterestRate sample_host
    (Fixtures.mockFetch Fixtures.mockApiResponse)
    (VObj [("product", VStr "SPAAR"); ("type", VStr "ANNUITAIR")])
  = ([], Ok (failure sample_host "Failed to calculate interest rate: "
               (ZodError [mkIssue invalid_enum_value [Key "product"]]))).
Proof.
  apply
    (proj1
       (interest_rate_request_iff_valid sample_host
          Tools2.InterestRateRequestSchema
          (Fixtures.mockFetch Fixtures.mockApiResponse)
          (VObj [("product", VStr "SPAAR"); ("type", VStr "ANNUITAIR")])
          (or_intror (or_introl eq_refl)))).
  reflexivity.
Defined.

(** X4.  [calculateMaximumMortgage] validates before it touches the
    network: arguments the schema refuses are answered with the failure
    envelope carrying zod's message and no request at all, and arguments
    the schema lets through lead to exactly one request. *)
Theorem maximum_mortgage_request_iff_valid (h : Host) (fetch : Fetch)
    (args : value) :
  (forall issues,
     safeParse MaximumMortgageRequestSchema args = Invalid issues ->
     calculateMaximumMortgage h fetch args
     = ([], Ok (failure h "Failed to calculate maximum mortgage: "
                  (ZodError issues))))
  /\ (forall out,
        safeParse MaximumMortgageRequestSchema args = Valid out ->
        exists req, fst (calculateMaximumMortgage h fetch args) = [req]).
Proof.
  split.
  - intros issues H. apply calculateMaximumMortgage_invalid. exact H.
  - intros out Hv. apply parse_valid in Hv.
    unfold calculateMaximumMortgage.
    rewrite (maximum_try_run h fetch _ _ Hv). cbv zeta.
    eexists. rewrite try_catch_sent. reflexivity.
Qed.

Lemma maximum_mortgage_request_iff_valid_witness :
  Tools.calculateMaximumMortgage sample_host
    (Fixtures.mockFetch Fixtures.mortgageResponse)
    (VObj [("mainIncome", VNum 50000); ("partnerIncome", VNull)])
  = ([], Ok (failure sample_host "Failed to calculate maximum mortgage: "
               (ZodError [mkIssue invalid_type [Key "partnerIncome"]]))).
Proof.
  apply
    (proj1
       (maximum_mortgage_request_iff_valid sample_host
          (Fixtures.mockFetch Fixtures.mortgageResponse)
          (VObj [("mainIncome", VNum 50000); ("partnerIncome", VNull)]))).
  reflexivity.
Defined.

(** X5.  The upstream faults of [calculateInterestRate], for arguments
    the schema lets through.  Each ends in the failure envelope, after the
    one request: a rejected [fetch] gives the rejection's message; an
    answer that is not ok gives [ABN AMRO API error (status): body], or
    the rejection's message when the body cannot be read; an ok answer
    whose body is no JSON gives the parser's message.  A rejection that is
    no [Error] gives [Unknown error]. *)
Theorem interest_rate_upstream_failures (h : Host) (S : schema) (fetch : Fetch)
    (args out : value) :
  In S [Tools.InterestRateRequestSchema; Tools2.InterestRateRequestSchema] ->
  parse S args = Ok out ->
  exists req,
    fst (calculateInterestRate h S fetch args) = [req]
    /\ (forall e,
          fetch req = Throw e ->
          snd (calculateInterestRate h S fetch args)
          = Ok (failure h "Failed to calculate interest rate: " e))
    /\ (forall response errorText,
          fetch req = Ok response ->
          Response.ok response = false ->
          Response.text response = Ok errorText ->
          snd (calculateInterestRate h S fetch args)
          = Ok (failure h "Failed to calculate interest rate: "
                  (JsError
                     ("ABN AMRO API error ("
                      ++ Z_toString (Response.status response)
                      ++ "): " ++ errorText))))
    /\ (forall response e,
          fetch req = Ok response ->
          Response.ok response = false ->
          Response.text response = Throw e ->
          snd (calculateInterestRate h S fetch args)
          = Ok (failure h "Failed to calculate interest rate: " e))
    /\ (forall response e,
          fetch req = Ok response ->
          Response.ok response = true ->
          Response.json response = Throw e ->
          snd (calculateInterestRate h S fetch args)
          = Ok (failure h "Failed to calculate interest rate: " e))
    /\ (forall v,
          document (failure h "Failed to calculate interest rate: " (NonError v))
          = Some (VObj [("success", VBool false);
                        ("error",
                         VStr "Failed to calculate interest rate: Unknown error")])).
Proof.
  intros HS Hparse.
  destruct (interest_schemas S HS) as (products & types & ->).
  pose proof (proj1 (parse_valid _ _ _) Hparse) as Hv.
  apply interest_schema_valid in Hv.
  destruct Hv as (props & p & t & ds & b & -> & -> & _).
  unfold calculateInterestRate.
  rewrite (interest_try_run h _ fetch _ _ _ _ _ Hparse). cbv zeta.
  eexists. split; [rewrite try_catch_sent; reflexivity |].
  split; [| split; [| split; [| split]]].
  - intros e He. rewrite He. reflexivity.
  - intros response errorText He Hok Ht. rewrite He. cbn [rbind].
    rewrite Hok, Ht. reflexivity.
  - intros response e He Hok Ht. rewrite He. cbn [rbind].
    rewrite Hok, Ht. reflexivity.
  - intros response e He Hok Hj. rewrite He. cbn [rbind].
    rewrite Hok, Hj. reflexivity.
  - intros v. reflexivity.
Qed.

Lemma interest_rate_upstream_failures_witness :
  snd (Tools.calculateInterestRate sample_host
         (fun _ => Ok (Response.mk false 503 (Ok "Service Unavailable")
                         (Throw (JsError "Unexpected token S in JSON"))))
         Fixtures.validRequest)
  = Ok (failure sample_host "Failed to calculate interest rate: "
          (JsError "ABN AMRO API error (503): Service Unavailable")).
Proof.
  destruct
    (interest_rate_upstream_failures sample_host Tools.InterestRateRequestSchema
       (fun _ => Ok (Response.mk false 503 (Ok "Service Unavailable")
                       (Throw (JsError "Unexpected token S in JSON"))))
       Fixtures.validRequest Fixtures.validRequest
       (or_introl eq_refl) eq_refl)
    as (req & _ & _ & Hhttp & _).
  exact (Hhttp _ "Service Unavailable" eq_refl eq_refl eq_refl).
Defined.

(** X6.  The upstream faults of [calculateMaximumMortgage], for
    arguments the schema lets through.  Each ends in the failure envelope,
    after the one request: a rejected [fetch] gives the rejection's
    message; an answer that is not ok gives [ABN AMRO API error (status):
    body], or the rejection's message when the body cannot be read; an ok
    answer whose body is no JSON gives the parser's message. *)
Theorem maximum_mortgage_upstream_failures (h : Host) (fetch : Fetch)
    (args out : value) :
  parse MaximumMortgageRequestSchema args = Ok out ->
  exists req,
    fst (calculateMaximumMortgage h fetch args) = [req]
    /\ (forall e,
          fetch req = Throw e ->
          snd (calculateMaximumMortgage h fetch args)
          = Ok (failure h "Failed to calculate maximum mortgage: " e))
    /\ (forall response errorText,
          fetch req = Ok response ->
          Response.ok response = false ->
          Response.text response = Ok errorText ->
          snd (calculateMaximumMortgage h fetch args)
          = Ok (failure h "Failed to calculate maximum mortgage: "
                  (JsError
                     ("ABN AMRO API error ("
                      ++ Z_toString (Response.status response)
                      ++ "): " ++ errorText))))
    /\ (forall response e,
          fetch req = Ok response ->
          Response.ok response = false ->
          Response.text response = Throw e ->
          snd (calculateMaximumMortgage h fetch args)
          = Ok (failure h "Failed to calculate maximum mortgage: " e))
    /\ (forall response e,
          fetch req = Ok response ->
          Response.ok response = true ->
          Response.json response = Throw e ->
          snd (calculateMaximumMortgage h fetch args)
          = Ok (failure h "Failed to calculate maximum mortgage: " e)).
Proof.
  intros Hparse.
  unfold calculateMaximumMortgage.
  rewrite (maximum_try_run h fetch _ _ Hparse). cbv zeta.
  eexists. split; [rewrite try_catch_sent; reflexivity |].
  split; [| split; [| split]].
  - intros e He. rewrite He. reflexivity.
  - intros response errorText He Hok Ht. rewrite He. cbn [rbind].
    rewrite Hok, Ht. reflexivity.
  - intros response e He Hok Ht. rewrite He. cbn [rbind].
    rewrite Hok, Ht. reflexivity.
  - intros response e He Hok Hj. rewrite He. cbn [rbind].
    rewrite Hok, Hj. reflexivity.
Qed.

Lemma maximum_mortgage_upstream_failures_witness :
  snd (Tools.calculateMaximumMortgage sample_host
         (fun _ => Throw (JsError "fetch failed"))
         Fixtures.mortgageRequest)
  = Ok (failure sample_host "Failed to calculate maximum mortgage: "
          (JsError "fetch failed")).
Proof.
  destruct
    (maximum_mortgage_upstream_failures sample_host
       (fun _ => Throw (JsError "fetch failed"))
       Fixtures.mortgageRequest Fixtures.mortgageRequest eq_refl)
    as (req & _ & Hreject & _).
  exact (Hreject _ eq_refl).
Defined.

(** ** The interest-rate schema *)

Lemma discounts_schema_variants :
  discounts_schema = z_default (z_optional (z_array discount_variants)) (VArr []).
Proof. reflexivity. Qed.

Lemma merge_array_inr (rs : list parsed) :
  forall (i : nat) (vs : list value),
    merge_array i rs = inr vs -> rs = map Valid vs.
Proof.
  induction rs as [| r rest IH]; simpl; intros i vs H.
  - inversion H. reflexivity.
  - destruct r as [v | is0];
      destruct (merge_array (S i) rest) as [is' | vs'] eqn:E;
      try discriminate.
    inversion H; subst vs. simpl. f_equal. exact (IH _ _ E).
Qed.

Lemma merge_array_all_valid (vs : list value) (i : nat) :
  merge_array i (map Valid vs) = inr vs.
Proof.
  revert i. induction vs as [| v vs IH]; simpl; intros i; [reflexivity |].
  rewrite IH. reflexivity.
Qed.

Lemma merge_array_issue (rs : list parsed) :
  forall (i0 i : nat) (is0 : list ZodIssue),
    nth_error rs i = Some (Invalid is0) ->
    exists issues,
      merge_array i0 rs = inl issues
      /\ incl (map (under (Index (i0 + i))) is0) issues.
Proof.
  induction rs as [| r rest IH]; intros i0 i is0 Hn.
  - destruct i; discriminate.
  - destruct i as [| i]; simpl in Hn.
    + inversion Hn; subst r. simpl. rewrite Nat.add_0_r.
      destruct (merge_array (S i0) rest) as [is' | vs'].
      * eexists. split; [reflexivity |]. apply incl_appl, incl_refl.
      * eexists. split; [reflexivity |]. apply incl_refl.
    + destruct (IH (S i0) i is0 Hn) as (issues & E & Hin).
      replace (i0 + S i)%nat with (S i0 + i)%nat by lia.
      simpl. rewrite E. destruct r as [v | is1].
      * eexists. split; [reflexivity |]. exact Hin.
      * eexists. split; [reflexivity |]. apply incl_appr. exact Hin.
Qed.

Lemma safeParse_union_cons (k : string) (o : schema) (rest : list schema)
    (input : list (string * value)) :
  safeParse (z_discriminatedUnion k (o :: rest)) (VObj input)
  = if option_matches k (lookup k input) o
    then safeParse o (VObj input)
    else safeParse (z_discriminatedUnion k rest) (VObj input).
Proof. reflexivity. Qed.

Lemma safeParse_union_nil (k : string) (input : list (string * value)) :
  safeParse (z_discriminatedUnion k []) (VObj input)
  = Invalid [mkIssue invalid_union_discriminator [Key k]].
Proof. reflexivity. Qed.

(** What the union of the two variants lets through, and what it writes. *)
Lemma discount_valid (d out : value) :
  safeParse discount_variants d = Valid out ->
  discount_doc out
  /\ exists props, d = VObj props /\ lookup "type" props = get_opt out "type".
Proof.
  unfold discount_variants, discount_doc.
  destruct d as [| | | | | | props]; try discriminate.
  rewrite !safeParse_union_cons, safeParse_union_nil.
  cbn [option_matches shape_literal String.eqb Ascii.eqb Bool.eqb].
  destruct (strict_eq_str (lookup "type" props) "BANK_ACCOUNT") eqn:E1.
  - rewrite safeParse_object.
    cbn [parse_members safeParse]. rewrite E1. intros H.
    destruct (lookup "type" props) as [| | | | s | |] eqn:L; try discriminate.
    apply String.eqb_eq in E1. subst s.
    cbn in H. inversion H. split; [left; reflexivity |].
    exists props. split; [reflexivity | exact L].
  - destruct (strict_eq_str (lookup "type" props) "SUSTAINABILITY") eqn:E2.
    + rewrite safeParse_object.
      cbn [parse_members safeParse]. rewrite E2. intros H.
      destruct (lookup "type" props) as [| | | | s | |] eqn:L; try discriminate.
      apply String.eqb_eq in E2. subst s.
      destruct (lookup "label" props) as [| | | | l | |] eqn:Ll;
        try discriminate.
      destruct (string_mem l ["B"; "A_OR_HIGHER"]) eqn:M; try discriminate.
      cbn in H. inversion H. split.
      * right. exists l. split; [| reflexivity].
        apply string_mem_In. exact M.
      * exists props. split; [reflexivity | exact L].
    + discriminate.
Qed.

Lemma discount_revalid (d : value) :
  discount_doc d -> safeParse discount_variants d = Valid d.
Proof.
  intros [-> | (l & Hl & ->)]; [reflexivity |].
  simpl in Hl. destruct Hl as [<- | [<- | []]]; reflexivity.
Qed.

Lemma discounts_valid_docs (v out : value) :
  safeParse discounts_schema v = Valid out ->
  exists ds,
    out = VArr ds /\ Forall discount_doc ds /\ (v = VUndefined -> ds = []).
Proof.
  rewrite discounts_schema_variants.
  destruct v as [| | | | | items |]; try discriminate.
  - intros H. inversion H. exists []. repeat split. constructor.
  - cbn [safeParse].
    destruct (merge_array 0 (map (safeParse discount_variants) items))
      as [is0 | vs] eqn:E; try discriminate.
    intros H. inversion H; subst out. exists vs.
    split; [reflexivity |]. split; [| discriminate].
    apply merge_array_inr in E.
    clear H. revert vs E.
    induction items as [| d items IH]; intros vs E;
      destruct vs as [| v vs]; try discriminate; constructor.
    + simpl in E. inversion E as [[Hd Hrest]].
      exact (proj1 (discount_valid d v Hd)).
    + simpl in E. inversion E as [[Hd Hrest]]. apply IH. exact Hrest.
Qed.

Lemma discounts_revalid (ds : list value) :
  Forall discount_doc ds ->
  safeParse discounts_schema (VArr ds) = Valid (VArr ds).
Proof.
  intros H. rewrite discounts_schema_variants. cbn [safeParse].
  replace (map (safeParse discount_variants) ds) with (map Valid ds).
  - rewrite merge_array_all_valid. reflexivity.
  - induction H as [| d ds Hd Hds IH]; cbn [map]; [reflexivity |].
    rewrite (discount_revalid d Hd), IH. reflexivity.
Qed.

Lemma interest_schema_valid_docs (products types : list string)
    (args out : value) :
  safeParse (interest_schema products types) args = Valid out ->
  exists props p t ds b,
    args = VObj props
    /\ out = VObj [("product", VStr p); ("type", VStr t);
                   ("discounts", VArr ds); ("inactive", VBool b)]
    /\ lookup "product" props = VStr p /\ string_mem p products = true
    /\ lookup "type" props = VStr t /\ string_mem t types = true
    /\ Forall discount_doc ds
    /\ (lookup "discounts" props = VUndefined -> ds = [])
    /\ (lookup "inactive" props = VUndefined /\ b = false
        \/ lookup "inactive" props = VBool b).
Proof.
  unfold interest_schema. intros H.
  destruct args as [| | | | | | props]; try discriminate.
  rewrite safeParse_object in H.
  destruct (parse_members props _) as [is0 | out0] eqn:E; try discriminate.
  inversion H; subst out; clear H.
  apply parse_members_cons_valid in E. destruct E as (x1 & o1 & E1 & E & ->).
  apply parse_members_cons_valid in E. destruct E as (x2 & o2 & E2 & E & ->).
  apply parse_members_cons_valid in E. destruct E as (x3 & o3 & E3 & E & ->).
  apply parse_members_cons_valid in E. destruct E as (x4 & o4 & E4 & E & ->).
  simpl in E. inversion E; subst o4; clear E.
  apply enum_valid in E1. destruct E1 as (p & Hp & -> & Hmp).
  apply enum_valid in E2. destruct E2 as (t & Ht & -> & Hmt).
  apply discounts_valid_docs in E3. destruct E3 as (ds & -> & Hds & Hdef).
  apply inactive_valid in E4. destruct E4 as (b & -> & Hb).
  exists props, p, t, ds, b. simpl. repeat split; auto.
Qed.

Lemma interest_schema_revalid (products types : list string) (p t : string)
    (ds : list value) (b : bool) :
  string_mem p products = true ->
  string_mem t types = true ->
  Forall discount_doc ds ->
  safeParse (interest_schema products types)
    (VObj [("product", VStr p); ("type", VStr t);
           ("discounts", VArr ds); ("inactive", VBool b)])
  = Valid (VObj [("product", VStr p); ("type", VStr t);
                 ("discounts", VArr ds); ("inactive", VBool b)]).
Proof.
  intros Hp Ht Hds. unfold interest_schema.
  rewrite safeParse_object.
  cbn [parse_members lookup String.eqb Ascii.eqb Bool.eqb].
  rewrite (discounts_revalid ds Hds).
  cbn [safeParse]. rewrite Hp, Ht. reflexivity.
Qed.

Lemma interest_schemas_registered (S : schema) :
  In S [Tools.InterestRateRequestSchema; Tools2.InterestRateRequestSchema;
        Index.calculate_interest_rate_shape] ->
  exists products types, S = interest_schema products types.
Proof.
  intros [<- | [<- | [<- | []]]];
    eauto using Tools_schema, Tools2_schema.
Qed.

(** X7.  What an interest-rate schema (of either tools module, or of the
    registration in [src/index.ts]) makes of the arguments it lets
    through: an object of exactly the four members [product], [type],
    [discounts], [inactive], whatever else the arguments carried; the
    product and the repayment type are the strings given; every discount
    is written as its tag alone ([BANK_ACCOUNT]) or its tag and label
    ([SUSTAINABILITY] with [B] or [A_OR_HIGHER]); missing [discounts]
    become the empty list and a missing [inactive] becomes [false]. *)
Theorem validated_interest_request (S : schema) (args out : value) :
  In S [Tools.InterestRateRequestSchema; Tools2.InterestRateRequestSchema;
        Index.calculate_interest_rate_shape] ->
  safeParse S args = Valid out ->
  exists props p t ds b,
    args = VObj props
    /\ out = VObj [("product", VStr p); ("type", VStr t);
                   ("discounts", VArr ds); ("inactive", VBool b)]
    /\ lookup "product" props = VStr p
    /\ lookup "type" props = VStr t
    /\ Forall discount_doc ds
    /\ (lookup "discounts" props = VUndefined -> ds = [])
    /\ (lookup "inactive" props = VUndefined -> b = false)
    /\ (lookup "inactive" props <> VUndefined ->
        lookup "inactive" props = VBool b).
Proof.
  intros HS Hv.
  destruct (interest_schemas_registered S HS) as (products & types & ->).
  apply interest_schema_valid_docs in Hv.
  destruct Hv as (props & p & t & ds & b & Ha & Ho & Lp & _ & Lt & _ & Hds
                  & Hdef & Hb).
  exists props, p, t, ds, b. repeat split; auto.
  - intros Hu. destruct Hb as [[_ Hb] | Hb]; [exact Hb |].
    rewrite Hu in Hb. discriminate.
  - intros Hn. destruct Hb as [[Hu _] | Hb]; [contradiction | exact Hb].
Qed.

Lemma validated_interest_request_witness :
  exists props p t ds b,
    VObj [("product", VStr "WONING"); ("type", VStr "LINEAIR");
          ("note", VStr "kept out");
          ("discounts",
           VArr [VObj [("type", VStr "SUSTAINABILITY"); ("label", VStr "B");
                       ("since", VNum 2020)]])]
    = VObj props
    /\ VObj [("product", VStr "WONING"); ("type", VStr "LINEAIR");
             ("discounts",
              VArr [VObj [("type", VStr "SUSTAINABILITY"); ("label", VStr "B")]]);
             ("inactive", VBool false)]
       = VObj [("product", VStr p); ("type", VStr t);
               ("discounts", VArr ds); ("inactive", VBool b)]
    /\ lookup "product" props = VStr p
    /\ lookup "type" props = VStr t
    /\ Forall discount_doc ds
    /\ (lookup "discounts" props = VUndefined -> ds = [])
    /\ (lookup "inactive" props = VUndefined -> b = false)
    /\ (lookup "inactive" props <> VUndefined ->
        lookup "inactive" props = VBool b).
Proof.
  apply (validated_interest_request Index.calculate_interest_rate_shape).
  - simpl. auto.
  - reflexivity.
Defined.

(** X8.  A discount whose tag is neither [BANK_ACCOUNT] nor
    [SUSTAINABILITY] is refused: the schema reports
    [invalid_union_discriminator] at [discounts[i].type], and the adapter
    answers with the failure envelope without a request. *)
Theorem unknown_discount_refused (h : Host) (S : schema) (fetch : Fetch)
    (props : list (string * value)) (items : list value) (i : nat)
    (dprops : list (string * value)) :
  In S [Tools.InterestRateRequestSchema; Tools2.InterestRateRequestSchema] ->
  lookup "discounts" props = VArr items ->
  nth_error items i = Some (VObj dprops) ->
  strict_eq_str (lookup "type" dprops) "BANK_ACCOUNT" = false ->
  strict_eq_str (lookup "type" dprops) "SUSTAINABILITY" = false ->
  exists issues,
    safeParse S (VObj props) = Invalid issues
    /\ In (mkIssue invalid_union_discriminator
             [Key "discounts"; Index i; Key "type"]) issues
    /\ calculateInterestRate h S fetch (VObj props)
       = ([], Ok (failure h "Failed to calculate interest rate: "
                    (ZodError issues))).
Proof.
  intros HS Ld Hn E1 E2.
  destruct (interest_schemas S HS) as (products & types & ->).
  assert (Hd : safeParse discount_variants (VObj dprops)
               = Invalid [mkIssue invalid_union_discriminator [Key "type"]]).
  { unfold discount_variants.
    rewrite !safeParse_union_cons, safeParse_union_nil.
    cbn [option_matches shape_literal String.eqb Ascii.eqb Bool.eqb].
    rewrite E1, E2. reflexivity. }
  assert (Hm : nth_error (map (safeParse discount_variants) items) i
               = Some (Invalid [mkIssue invalid_union_discriminator
                                  [Key "type"]])).
  { rewrite <- Hd. apply map_nth_error. exact Hn. }
  destruct (merge_array_issue _ 0 i _ Hm) as (is3 & Em & Hin).
  assert (H3 : safeParse discounts_schema (lookup "discounts" props)
               = Invalid is3).
  { rewrite Ld, discounts_schema_variants. cbn [safeParse]. rewrite Em.
    reflexivity. }
  assert (Hmem : In (mkIssue invalid_union_discriminator
                       [Key "discounts"; Index i; Key "type"])
                   (map (under (Key "discounts")) is3)).
  { apply (in_map (under (Key "discounts"))
             is3 (mkIssue invalid_union_discriminator [Index i; Key "type"])).
    apply Hin. left. reflexivity. }
  assert (Hinv : exists issues,
             safeParse (interest_schema products types) (VObj props)
             = Invalid issues
             /\ In (mkIssue invalid_union_discriminator
                      [Key "discounts"; Index i; Key "type"]) issues).
  { unfold interest_schema. rewrite safeParse_object.
    cbn [parse_members]. rewrite H3.
    destruct (safeParse (z_enum products) (lookup "product" props));
      destruct (safeParse (z_enum types) (lookup "type" props));
      destruct (safeParse (z_default (z_optional z_boolean) (VBool false))
                  (lookup "inactive" props));
      eexists; (split; [reflexivity |]);
      repeat rewrite in_app_iff; tauto. }
  destruct Hinv as (issues & Hi & Hin').
  exists issues. split; [exact Hi |]. split; [exact Hin' |].
  apply calculateInterestRate_invalid. exact Hi.
Qed.

Lemma unknown_discount_refused_witness :
  exists issues,
    safeParse Tools2.InterestRateRequestSchema
      (VObj [("product", VStr "BUDGET"); ("type", VStr "ANNUITAIR");
             ("discounts",
              VArr [VObj [("type", VStr "BANK_ACCOUNT")];
                    VObj [("type", VStr "STAFF")]])])
    = Invalid issues
    /\ In (mkIssue invalid_union_discriminator
             [Key "discounts"; Index 1; Key "type"]) issues
    /\ calculateInterestRate sample_host Tools2.InterestRateRequestSchema
         (Fixtures.mockFetch Fixtures.mockApiResponse)
         (VObj [("product", VStr "BUDGET"); ("type", VStr "ANNUITAIR");
                ("discounts",
                 VArr [VObj [("type", VStr "BANK_ACCOUNT")];
                       VObj [("type", VStr "STAFF")]])])
       = ([], Ok (failure sample_host "Failed to calculate interest rate: "
                    (ZodError issues))).
Proof.
  apply
    (unknown_discount_refused sample_host Tools2.InterestRateRequestSchema
       (Fixtures.mockFetch Fixtures.mockApiResponse) _
       [VObj [("type", VStr "BANK_ACCOUNT")]; VObj [("type", VStr "STAFF")]]
       1 [("type", VStr "STAFF")]).
  - simpl. auto.
  - reflexivity.
  - reflexivity.
  - reflexivity.
  - reflexivity.
Defined.

(** X9.  What the adapters do with a request the registered shape of
    [src/index.ts] has let through.  The adapter of [src/tools.ts], which
    the server imports, lets the validated request through again,
    unchanged, when its product is [BUDGET] and its repayment type
    [ANNUITAIR], and answers it with a validation failure, without a
    request, in every other case.  The adapter of the second tools module
    lets every such request through again, unchanged, and does for it
    exactly what it does for the arguments it came from. *)
Theorem registered_request_at_the_adapters (h : Host) (fetch : Fetch)
    (args out : value) :
  safeParse Index.calculate_interest_rate_shape args = Valid out ->
  (get_opt out "product" = VStr "BUDGET" ->
   get_opt out "type" = VStr "ANNUITAIR" ->
   safeParse Tools.InterestRateRequestSchema out = Valid out)
  /\ (get_opt out "product" <> VStr "BUDGET"
      \/ get_opt out "type" <> VStr "ANNUITAIR" ->
      exists issues,
        safeParse Tools.InterestRateRequestSchema out = Invalid issues
        /\ Tools.calculateInterestRate h fetch out
           = ([], Ok (failure h "Failed to calculate interest rate: "
                        (ZodError issues))))
  /\ safeParse Tools2.InterestRateRequestSchema out = Valid out
  /\ Tools2.calculateInterestRate h fetch out
     = Tools2.calculateInterestRate h fetch args.
Proof.
  intros Hv.
  change Index.calculate_interest_rate_shape
    with (interest_schema ["BUDGET"; "WONING"]
            ["ANNUITAIR"; "LINEAIR"; "AFLOSSINGSVRIJ"]) in Hv.
  pose proof (interest_schema_valid_docs _ _ _ _ Hv) as Hshape.
  destruct Hshape as (props & p & t & ds & b & _ & -> & _ & Hp & _ & Ht
                      & Hds & _).
  assert (Hre : safeParse Tools2.InterestRateRequestSchema
                  (VObj [("product", VStr p); ("type", VStr t);
                         ("discounts", VArr ds); ("inactive", VBool b)])
                = Valid (VObj [("product", VStr p); ("type", VStr t);
                               ("discounts", VArr ds); ("inactive", VBool b)])).
  { rewrite Tools2_schema. apply interest_schema_revalid; assumption. }
  split; [| split; [| split]].
  - cbn [get_opt lookup String.eqb Ascii.eqb Bool.eqb].
    intros Ep Et. apply VStr_inj in Ep. apply VStr_inj in Et. subst p t.
    rewrite Tools_schema.
    apply interest_schema_revalid; [reflexivity | reflexivity | exact Hds].
  - cbn [get_opt lookup String.eqb Ascii.eqb Bool.eqb].
    intros Hne. rewrite Tools_schema. unfold Tools.calculateInterestRate.
    rewrite Tools_schema.
    apply interest_schema_rejects.
    cbn [lookup String.eqb Ascii.eqb Bool.eqb].
    destruct Hne as [Hne | Hne]; [left | right]; intros s Es [<- | []];
      apply Hne; exact Es.
  - exact Hre.
  - unfold Tools2.calculateInterestRate, calculateInterestRate,
      calculateInterestRate_try, parse.
    change (safeParse Tools2.InterestRateRequestSchema args)
      with (safeParse (interest_schema ["BUDGET"; "WONING"]
                         ["ANNUITAIR"; "LINEAIR"; "AFLOSSINGSVRIJ"]) args).
    rewrite Hre, Hv. reflexivity.
Qed.

Lemma registered_request_at_the_adapters_witness :
  exists issues,
    safeParse Tools.InterestRateRequestSchema
      (VObj [("product", VStr "WONING"); ("type", VStr "LINEAIR");
             ("discounts", VArr []); ("inactive", VBool false)])
    = Invalid issues
    /\ Tools.calculateInterestRate sample_host
         (Fixtures.mockFetch Fixtures.mockApiResponse)
         (VObj [("product", VStr "WONING"); ("type", VStr "LINEAIR");
                ("discounts", VArr []); ("inactive", VBool false)])
       = ([], Ok (failure sample_host "Failed to calculate interest rate: "
                    (ZodError issues))).
Proof.
  destruct
    (registered_request_at_the_adapters sample_host
       (Fixtures.mockFetch Fixtures.mockApiResponse)
       (VObj [("type", VStr "LINEAIR"); ("product", VStr "WONING")])
       (VObj [("product", VStr "WONING"); ("type", VStr "LINEAIR");
              ("discounts", VArr []); ("inactive", VBool false)]))
    as (_ & Hrefused & _).
  - reflexivity.
  - apply Hrefused. left. discriminate.
Defined.

(** ** The maximum-mortgage schema *)

Lemma maximum_schema_out (args out : value) :
  safeParse MaximumMortgageRequestSchema args = Valid out ->
  exists q,
    (0 <=? q)%float = true
    /\ (out = VObj [("mainIncome", VNum q)]
        \/ out = VObj [("mainIncome", VNum q); ("partnerIncome", VUndefined)]
        \/ exists p,
             (0 <=? p)%float = true
             /\ out = VObj [("mainIncome", VNum q); ("partnerIncome", VNum p)]).
Proof.
  unfold MaximumMortgageRequestSchema. intros H.
  destruct args as [| | | | | | props]; try discriminate.
  rewrite safeParse_object in H.
  destruct (parse_members props _) as [is0 | out0] eqn:E; try discriminate.
  inversion H; subst out; clear H.
  apply parse_members_cons_valid in E. destruct E as (x1 & o1 & E1 & E & ->).
  apply parse_members_cons_valid in E. destruct E as (x2 & o2 & E2 & E & ->).
  simpl in E. inversion E; subst o2; clear E.
  apply number_valid in E1. destruct E1 as (q & L1 & -> & Hq).
  exists q. split; [exact Hq |].
  destruct (lookup "partnerIncome" props) as [| | | p | | |] eqn:L2;
    try (simpl in E2; discriminate).
  - inversion E2; subst x2. unfold set_member.
    destruct (has_key "partnerIncome" props); auto.
  - change (safeParse (z_optional (z_number [min 0])) (VNum p))
      with (safeParse (z_number [min 0]) (VNum p)) in E2.
    apply number_valid in E2. destruct E2 as (p' & Hp' & -> & Hle).
    apply VNum_inj in Hp'. subst p'.
    right. right. exists p. auto.
Qed.

Lemma maximum_schema_accepts (props : list (string * value)) (q : float) :
  lookup "mainIncome" props = VNum q ->
  (0 <=? q)%float = true ->
  lookup "partnerIncome" props = VUndefined
  \/ (exists p,
        lookup "partnerIncome" props = VNum p /\ (0 <=? p)%float = true) ->
  exists out, safeParse MaximumMortgageRequestSchema (VObj props) = Valid out.
Proof.
  intros L1 Hq Hp. unfold MaximumMortgageRequestSchema.
  rewrite safeParse_object. cbn [parse_members]. rewrite L1.
  rewrite (number_accepts q Hq).
  destruct Hp as [L2 | (p & L2 & Hp)]; rewrite L2.
  - eexists. reflexivity.
  - change (safeParse (z_optional (z_number [min 0])) (VNum p))
      with (safeParse (z_number [min 0]) (VNum p)).
    rewrite (number_accepts p Hp). eexists. reflexivity.
Qed.

(** X10.  The maximum-mortgage schema lets through exactly the objects
    whose [mainIncome] is a number that is not negative and whose
    [partnerIncome] is missing or a number that is not negative.  A
    [partnerIncome] of [null], a negative income, an income given as a
    string and arguments that are no object are all refused. *)
Theorem maximum_schema_accepts_iff (args : value) :
  (exists out, safeParse MaximumMortgageRequestSchema args = Valid out)
  <-> (exists props q,
         args = VObj props
         /\ lookup "mainIncome" props = VNum q /\ (0 <=? q)%float = true
         /\ (lookup "partnerIncome" props = VUndefined
             \/ exists p,
                  lookup "partnerIncome" props = VNum p
                  /\ (0 <=? p)%float = true)).
Proof.
  split.
  - intros (out & Hv). apply maximum_schema_valid in Hv.
    destruct Hv as (props & q & Ha & L1 & Hq & _ & _ & Hp & _).
    exists props, q. auto.
  - intros (props & q & -> & L1 & Hq & Hp).
    apply (maximum_schema_accepts props q L1 Hq Hp).
Qed.

(** X11.  Validating twice changes nothing for the maximum-mortgage
    schema either: what it has let through it lets through again,
    unchanged, and the adapter does for the validated request exactly what
    it does for the arguments it came from. *)
Theorem maximum_revalidation (h : Host) (fetch : Fetch) (args out : value) :
  safeParse MaximumMortgageRequestSchema args = Valid out ->
  safeParse MaximumMortgageRequestSchema out = Valid out
  /\ calculateMaximumMortgage h fetch out = calculateMaximumMortgage h fetch args.
Proof.
  intros Hv.
  assert (Hre : safeParse MaximumMortgageRequestSchema out = Valid out).
  { destruct (maximum_schema_out args out Hv)
      as (q & Hq & [-> | [-> | (p & Hp & ->)]]);
      unfold MaximumMortgageRequestSchema; rewrite safeParse_object;
      cbn [parse_members lookup String.eqb Ascii.eqb Bool.eqb];
      rewrite (number_accepts q Hq);
      try (change (safeParse (z_optional (z_number [min 0])) (VNum p))
             with (safeParse (z_number [min 0]) (VNum p));
           rewrite (number_accepts p Hp));
      reflexivity. }
  split; [exact Hre |].
  unfold calculateMaximumMortgage, calculateMaximumMortgage_try, parse.
  rewrite Hre, Hv. reflexivity.
Qed.

Lemma maximum_revalidation_witness :
  safeParse MaximumMortgageRequestSchema Fixtures.mortgageRequest
  = Valid Fixtures.mortgageRequest
  /\ calculateMaximumMortgage sample_host
       (Fixtures.mockFetch Fixtures.mortgageResponse) Fixtures.mortgageRequest
     = calculateMaximumMortgage sample_host
         (Fixtures.mockFetch Fixtures.mortgageResponse)
         (VObj [("partnerIncome", VNum 30000); ("children", VNum 2);
                ("mainIncome", VNum 50000)]).
Proof.
  apply
    (maximum_revalidation sample_host
       (Fixtures.mockFetch Fixtures.mortgageResponse)
       (VObj [("partnerIncome", VNum 30000); ("children", VNum 2);
              ("mainIncome", VNum 50000)])
       Fixtures.mortgageRequest).
  reflexivity.
Defined.

(** ** Property transfer tax *)

(** X12.  [getPropertyTransferTax] returns an envelope exactly when its
    arguments are an object whose [housePrice] is a number that is not
    negative; on everything else it throws the [ZodError] of the schema,
    and it throws nothing else. *)
Theorem property_transfer_tax_returns_iff (h : Host) (args : value) :
  ((exists r, Tools2.getPropertyTransferTax h args = Ok r)
   <-> (exists props q,
          args = VObj props /\ lookup "housePrice" props = VNum q
          /\ (0 <=? q)%float = true))
  /\ (forall e,
        Tools2.getPropertyTransferTax h args = Throw e ->
        exists issues,
          e = ZodError issues
          /\ safeParse Tools2.HouseTaxQuotaRequestSchema args = Invalid issues).
Proof.
  destruct (safeParse Tools2.HouseTaxQuotaRequestSchema args)
    as [out | issues] eqn:E.
  - apply house_price_valid in E.
    destruct E as (props & q & -> & L & Hq & _).
    rewrite (property_transfer_tax_run h props q L Hq).
    split; [split |].
    + intros _. exists props, q. auto.
    + intros _. eexists. reflexivity.
    + intros e He. discriminate He.
  - rewrite (getPropertyTransferTax_invalid h args issues E).
    split; [split |].
    + intros (r & Hr). discriminate Hr.
    + intros (props & q & -> & L & Hq). exfalso.
      pose proof (house_price_accepted props q L Hq) as Hok.
      unfold parse in Hok. rewrite E in Hok. discriminate Hok.
    + intros e He. inversion He. eauto.
Qed.

(** ** The periods of a payload *)

Lemma rmap_ok {A B : Type} (f : A -> result B) (l : list A) :
  Forall (fun x => exists y, f x = Ok y) l ->
  exists ys, rmap f l = Ok ys /\ Forall2 (fun x y => f x = Ok y) l ys.
Proof.
  intros H. induction H as [| x l (y & Hy) Hl (ys & E & IH)].
  - exists []. split; [reflexivity | constructor].
  - exists (y :: ys). simpl. rewrite Hy. cbn [rbind]. rewrite E.
    split; [reflexivity | constructor; assumption].
Qed.

Lemma rmap_throw {A B : Type} (f : A -> result B) (pre post : list A) (x : A)
    (e : thrown) :
  Forall (fun x => exists y, f x = Ok y) pre ->
  f x = Throw e ->
  rmap f (pre ++ x :: post) = Throw e.
Proof.
  intros Hpre Hx. induction Hpre as [| a pre (y & Hy) Hpre IH]; simpl.
  - rewrite Hx. reflexivity.
  - rewrite Hy. cbn [rbind]. rewrite IH. reflexivity.
Qed.

Lemma rfind_defined (tag : string) (items : list value) :
  Forall defined items ->
  exists found, rfind (has_type tag) items = Ok found.
Proof.
  intros H. induction H as [| x items Hx Hitems (found & IH)]; simpl.
  - eexists. reflexivity.
  - rewrite (has_type_defined tag x Hx). cbn [rbind].
    destruct (tagged tag x); eauto.
Qed.

Lemma readable_period_entry (h : Host) (period : value) :
  readable_period period -> exists entry, period_entry h period = Ok entry.
Proof.
  intros [Hp Hr]. rewrite (period_entry_defined h period Hp).
  destruct Hr as [Hn | (items & -> & Hd)].
  - destruct (get_opt period "rates"); try discriminate; eexists; reflexivity.
  - rewrite (lifeTimeValue_array items Hd).
    unfold dutchNationalMortgageGuarantee.
    destruct (rfind_defined "NHG" items Hd) as (found & ->).
    eexists. reflexivity.
Qed.

Lemma Forall2_length_eq {A B : Type} (R : A -> B -> Prop) (l : list A)
    (l' : list B) :
  Forall2 R l l' -> List.length l' = List.length l.
Proof.
  intros H. induction H; simpl; congruence.
Qed.







(** ** [durationInYears] on whole months *)

Lemma all_from_spec (p : Z -> bool) (n : nat) (i : Z) :
  all_from p n i = true ->
  forall z, (i <= z < i + Z.of_nat n)%Z -> p z = true.
Proof.
  revert i. induction n as [| n IH]; intros i H z Hz.
  - lia.
  - cbn [all_from] in H. destruct (p i) eqn:Hp; [| discriminate H].
    destruct (Z.eq_dec z i) as [-> | Hne]; [exact Hp |].
    apply (IH (i + 1)%Z H). lia.
Qed.






(** The instances the claim names, through the adapter. *)
Example durationInYears_through_the_adapter :
  let run :=
    Tools.calculateInterestRate sample_host (Fixtures.mockFetch payload_months)
      Fixtures.validRequest in
  option_map (fun ps => get_opt (item ps 0) "durationInYears")
    (read run ["data"; "periods"])
  = Some (VNum 10)
  /\ option_map (fun ps => get_opt (item ps 1) "durationInYears")
       (read run ["data"; "periods"])
     = Some (VNum 10.4).
Proof.
  vm_compute. repeat split.
Qed.

(** Past 2^52 months the quotient [duration / 12 * 10] has no fractional
    part left in binary64, and the tenths the adapter rounds to are no
    longer the nearest ones. *)
Example durationInYears_past_2_52 (h : Host) :
  durationInYears h (VNum 4503599627370497) = VNum 375299968947541.5
  /\ (Math_round (4503599627370497 / 12 * 10) =? 3752999689475415)%float = true
  /\ tenths 4503599627370497 = 3752999689475414%Z.
Proof.
  repeat split; reflexivity.
Qed.

(** X15.  One entry per period, in the provider's order, none left out:
    when the payload's [periods] is a list of periods that can be read
    (no period is [null], and the rates of each are missing or a list
    without [null] entries), the adapter succeeds and the written
    [data.periods] has one entry for each of them, each the entry of its
    period; inactive periods are kept like the others. *)
Theorem one_entry_per_period (h : Host) (S : schema) (fetch : Fetch)
    (args out : value) (response : Response.t) (data : value)
    (ps : list value) :
  In S [Tools.InterestRateRequestSchema; Tools2.InterestRateRequestSchema] ->
  parse S args = Ok out ->
  (forall req, fetch req = Ok response) ->
  Response.ok response = true ->
  Response.json response = Ok data ->
  defined data ->
  get_opt data "periods" = VArr ps ->
  Forall readable_period ps ->
  exists sent r doc entries,
    calculateInterestRate h S fetch args = (sent, Ok r)
    /\ document r = Some doc
    /\ at_path doc ["success"] = VBool true
    /\ Forall2 (fun period entry => period_entry h period = Ok entry) ps entries
    /\ at_path doc ["data"; "periods"] = JSON_stringify (VArr entries)
    /\ items_length (at_path doc ["data"; "periods"]) = Some (List.length ps).
Proof.
  intros HS Hparse Hf Hok Hj Hd Hps Hread.
  destruct (interest_run_ok h S fetch args out response data HS Hparse Hf Hok Hj)
    as (req & ->).
  rewrite (interest_rate_success_defined h _ _ _ _ data Hd).
  assert (Hall : Forall (fun p => exists e, period_entry h p = Ok e) ps).
  { eapply Forall_impl; [| exact Hread].
    intros p Hp. apply readable_period_entry. exact Hp. }
  destruct (rmap_ok (period_entry h) ps Hall) as (entries & E & H2).
  assert (Hperiods : periods h data = Ok (VArr entries)).
  { unfold periods. rewrite (get_defined data _ Hd). cbn [rbind].
    rewrite Hps, E. reflexivity. }
  rewrite Hperiods. cbn [rbind try_catch].
  eexists. eexists. eexists. exists entries.
  split; [reflexivity |]. split; [reflexivity |]. split; [reflexivity |].
  split; [exact H2 |].
  cbn [text text_result].
  rewrite document_data_member by reflexivity.
  cbn [lookup String.eqb Ascii.eqb Bool.eqb JSON_member].
  split; [reflexivity |].
  cbn [JSON_stringify items_length]. rewrite length_map.
  rewrite (Forall2_length_eq _ _ _ H2). reflexivity.
Qed.

Lemma one_entry_per_period_witness :
  exists sent r doc entries,
    calculateInterestRate sample_host Tools.InterestRateRequestSchema
      (Fixtures.mockFetch Fixtures.mockApiResponse) Fixtures.validRequest
    = (sent, Ok r)
    /\ document r = Some doc
    /\ at_path doc ["success"] = VBool true
    /\ Forall2
         (fun period entry => period_entry sample_host period = Ok entry)
         [VObj
            [("duration", VNum 120);
             ("inactive", VBool false);
             ("type", VStr "VAST");
             ("reflectionPeriod", VNum 14);
             ("rates",
              VArr
                [VObj [("type", VStr "NHG"); ("value", VNum 3.2)];
                 VObj [("type", VStr "LTV"); ("ltv", VStr "80-90%");
                       ("value", VNum 3.5)];
                 VObj [("type", VStr "LTV"); ("ltv", VStr "90-100%");
                       ("value", VNum 3.8)]])]]
         entries
    /\ at_path doc ["data"; "periods"] = JSON_stringify (VArr entries)
    /\ items_length (at_path doc ["data"; "periods"]) = Some 1%nat.
Proof.
  apply
    (one_entry_per_period sample_host Tools.InterestRateRequestSchema
       (Fixtures.mockFetch Fixtures.mockApiResponse)
       Fixtures.validRequest Fixtures.validRequest
       (Response.mk true 200 (Throw (TypeError (NotAFunction VUndefined "text")))
          (Ok Fixtures.mockApiResponse))
       Fixtures.mockApiResponse).
  - simpl. auto.
  - reflexivity.
  - reflexivity.
  - reflexivity.
  - reflexivity.
  - reflexivity.
  - reflexivity.
  - constructor; [| constructor].
    split; [reflexivity |]. right. eexists. split; [reflexivity |].
    repeat constructor.
Defined.

(** X16.  No partial result: when one period of the payload cannot be
    read (the first such period makes [period_entry] fault, for instance a
    period that is [null]), the whole call is answered with the failure
    envelope carrying that fault's message, however many periods before
    it were fine; the one request has been issued. *)
Theorem faulty_period_fails_call (h : Host) (S : schema) (fetch : Fetch)
    (args out : value) (response : Response.t) (data : value)
    (pre post : list value) (period : value) (e : thrown) :
  In S [Tools.InterestRateRequestSchema; Tools2.InterestRateRequestSchema] ->
  parse S args = Ok out ->
  (forall req, fetch req = Ok response) ->
  Response.ok response = true ->
  Response.json response = Ok data ->
  defined data ->
  get_opt data "periods" = VArr (pre ++ period :: post) ->
  Forall readable_period pre ->
  period_entry h period = Throw e ->
  exists req,
    calculateInterestRate h S fetch args
    = ([req], Ok (failure h "Failed to calculate interest rate: " e)).
Proof.
  intros HS Hparse Hf Hok Hj Hd Hps Hpre He.
  destruct (interest_run_ok h S fetch args out response data HS Hparse Hf Hok Hj)
    as (req & ->).
  rewrite (interest_rate_success_defined h _ _ _ _ data Hd).
  assert (Hall : Forall (fun p => exists y, period_entry h p = Ok y) pre).
  { eapply Forall_impl; [| exact Hpre].
    intros p Hp. apply readable_period_entry. exact Hp. }
  assert (Hperiods : periods h data = Throw e).
  { unfold periods. rewrite (get_defined data _ Hd). cbn [rbind].
    rewrite Hps, (rmap_throw (period_entry h) pre post period e Hall He).
    reflexivity. }
  rewrite Hperiods. exists req. reflexivity.
Qed.

Lemma faulty_period_fails_call_witness :
  exists req,
    calculateInterestRate sample_host Tools.InterestRateRequestSchema
      (Fixtures.mockFetch
         (VObj [("periods", VArr [VObj [("duration", VNum 120)]; VNull])]))
      Fixtures.validRequest
    = ([req],
       Ok (failure sample_host "Failed to calculate interest rate: "
             (TypeError (ReadOfNullish VNull "duration")))).
Proof.
  apply
    (faulty_period_fails_call sample_host Tools.InterestRateRequestSchema
       (Fixtures.mockFetch
          (VObj [("periods", VArr [VObj [("duration", VNum 120)]; VNull])]))
       Fixtures.validRequest Fixtures.validRequest
       (Response.mk true 200 (Throw (TypeError (NotAFunction VUndefined "text")))
          (Ok (VObj [("periods",
                      VArr [VObj [("duration", VNum 120)]; VNull])])))
       (VObj [("periods", VArr [VObj [("duration", VNum 120)]; VNull])])
       [VObj [("duration", VNum 120)]] [] VNull).
  - simpl. auto.
  - reflexivity.
  - reflexivity.
  - reflexivity.
  - reflexivity.
  - reflexivity.
  - reflexivity.
  - constructor; [| constructor].
    split; [reflexivity |]. left. reflexivity.
  - reflexivity.
Defined.

(** X17.  A payload that is [null] is a failure, not an empty success:
    the interest-rate adapter answers an ok response whose JSON body is
    [null] with the failure envelope of the [TypeError] raised when it
    reads the first member. *)
Theorem null_payload_fails_interest_rate (h : Host) (S : schema) (fetch : Fetch)
    (args out : value) (response : Response.t) (data : value) :
  In S [Tools.InterestRateRequestSchema; Tools2.InterestRateRequestSchema] ->
  parse S args = Ok out ->
  (forall req, fetch req = Ok response) ->
  Response.ok response = true ->
  Response.json response = Ok data ->
  is_nullish data = true ->
  exists req,
    calculateInterestRate h S fetch args
    = ([req],
       Ok (failure h "Failed to calculate interest rate: "
             (TypeError (ReadOfNullish data "overbruggingskrediet")))).
Proof.
  intros HS Hparse Hf Hok Hj Hn.
  destruct (interest_run_ok h S fetch args out response data HS Hparse Hf Hok Hj)
    as (req & ->).
  exists req. destruct data; try discriminate; reflexivity.
Qed.

Lemma null_payload_fails_interest_rate_witness :
  exists req,
    calculateInterestRate sample_host Tools.InterestRateRequestSchema
      (Fixtures.mockFetch VNull) Fixtures.validRequest
    = ([req],
       Ok (failure sample_host "Failed to calculate interest rate: "
             (TypeError (ReadOfNullish VNull "overbruggingskrediet")))).
Proof.
  apply
    (null_payload_fails_interest_rate sample_host Tools.InterestRateRequestSchema
       (Fixtures.mockFetch VNull) Fixtures.validRequest Fixtures.validRequest
       (Response.mk true 200 (Throw (TypeError (NotAFunction VUndefined "text")))
          (Ok VNull))
       VNull).
  - simpl. auto.
  - reflexivity.
  - reflexivity.
  - reflexivity.
  - reflexivity.
  - reflexivity.
Defined.

(** X18.  The same for the maximum-mortgage adapter: an ok response whose
    JSON body is [null] is answered with the failure envelope of the
    [TypeError] raised when [data.value] is read, after the one request. *)
Theorem null_payload_fails_maximum_mortgage (h : Host) (fetch : Fetch)
    (args out : value) (response : Response.t) (data : value) :
  parse MaximumMortgageRequestSchema args = Ok out ->
  (forall req, fetch req = Ok response) ->
  Response.ok response = true ->
  Response.json response = Ok data ->
  is_nullish data = true ->
  exists req,
    calculateMaximumMortgage h fetch args
    = ([req],
       Ok (failure h "Failed to calculate maximum mortgage: "
             (TypeError (ReadOfNullish data "value")))).
Proof.
  intros Hparse Hf Hok Hj Hn.
  unfold calculateMaximumMortgage.
  rewrite (maximum_try_run h fetch _ _ Hparse). cbv zeta.
  rewrite Hf. cbn [rbind]. rewrite Hok, Hj. cbn [negb rbind].
  eexists. destruct data; try discriminate; reflexivity.
Qed.

Lemma null_payload_fails_maximum_mortgage_witness :
  exists req,
    calculateMaximumMortgage sample_host (Fixtures.mockFetch VNull)
      Fixtures.mortgageRequest
    = ([req],
       Ok (failure sample_host "Failed to calculate maximum mortgage: "
             (TypeError (ReadOfNullish VNull "value")))).
Proof.
  apply
    (null_payload_fails_maximum_mortgage sample_host (Fixtures.mockFetch VNull)
       Fixtures.mortgageRequest Fixtures.mortgageRequest
       (Response.mk true 200 (Throw (TypeError (NotAFunction VUndefined "text")))
          (Ok VNull))
       VNull); reflexivity.
Defined.

(** X19.  A [periods] member that is there but is no list (an object, a
    string, a number, a boolean) makes the call fail: the adapter answers
    with the failure envelope of the [TypeError] for calling [map] on it,
    where a missing or [null] member gives the empty list. *)
Theorem periods_not_a_list_fails_call (h : Host) (S : schema) (fetch : Fetch)
    (args out : value) (response : Response.t) (data raw : value) :
  In S [Tools.InterestRateRequestSchema; Tools2.InterestRateRequestSchema] ->
  parse S args = Ok out ->
  (forall req, fetch req = Ok response) ->
  Response.ok response = true ->
  Response.json response = Ok data ->
  defined data ->
  get_opt data "periods" = raw ->
  is_nullish raw = false ->
  (forall items, raw <> VArr items) ->
  exists req,
    calculateInterestRate h S fetch args
    = ([req],
       Ok (failure h "Failed to calculate interest rate: "
             (TypeError (NotAFunction raw "map")))).
Proof.
  intros HS Hparse Hf Hok Hj Hd Hraw Hn Hnot.
  destruct (interest_run_ok h S fetch args out response data HS Hparse Hf Hok Hj)
    as (req & ->).
  rewrite (interest_rate_success_defined h _ _ _ _ data Hd).
  assert (Hperiods : periods h data = Throw (TypeError (NotAFunction raw "map"))).
  { unfold periods. rewrite (get_defined data _ Hd). cbn [rbind].
    rewrite Hraw.
    destruct raw; try discriminate; try reflexivity.
    exfalso. exact (Hnot _ eq_refl). }
  rewrite Hperiods. exists req. reflexivity.
Qed.

Lemma periods_not_a_list_fails_call_witness :
  exists req,
    calculateInterestRate sample_host Tools.InterestRateRequestSchema
      (Fixtures.mockFetch (VObj [("periods", VObj [("0", VNull)])]))
      Fixtures.validRequest
    = ([req],
       Ok (failure sample_host "Failed to calculate interest rate: "
             (TypeError (NotAFunction (VObj [("0", VNull)]) "map")))).
Proof.
  apply
    (periods_not_a_list_fails_call sample_host Tools.InterestRateRequestSchema
       (Fixtures.mockFetch (VObj [("periods", VObj [("0", VNull)])]))
       Fixtures.validRequest Fixtures.validRequest
       (Response.mk true 200 (Throw (TypeError (NotAFunction VUndefined "text")))
          (Ok (VObj [("periods", VObj [("0", VNull)])])))
       (VObj [("periods", VObj [("0", VNull)])])
       (VObj [("0", VNull)])).
  - simpl. auto.
  - reflexivity.
  - reflexivity.
  - reflexivity.
  - reflexivity.
  - reflexivity.
  - reflexivity.
  - reflexivity.
  - intros items H. discriminate H.
Defined.

(** X20.  A period without [duration] is written without a fault: its
    entry has no [duration] member, and its [durationInYears], which is
    [NaN] in the adapter, is written [null]. *)
Theorem missing_duration_written_null (h : Host) (period : value) :
  readable_period period ->
  get_opt period "duration" = VUndefined ->
  exists entry,
    period_entry h period = Ok entry
    /\ get_opt entry "durationInYears" = VNum nan
    /\ get_opt (JSON_stringify entry) "durationInYears" = VNull
    /\ get_opt (JSON_stringify entry) "duration" = VUndefined.
Proof.
  intros Hr Hd.
  destruct (readable_period_entry h period Hr) as (entry & He).
  exists entry. split; [exact He |].
  destruct Hr as [Hp _].
  rewrite (period_entry_defined h period Hp), Hd in He.
  destruct (dutchNationalMortgageGuarantee (get_opt period "rates"));
    [| discriminate He].
  destruct (lifeTimeValue (get_opt period "rates")); [| discriminate He].
  cbn [rbind] in He.
  apply (f_equal (fun r => match r with Ok x => x | Throw _ => entry end)) in He.
  subst entry.
  split; [reflexivity |].
  split; rewrite stringify_lookup by reflexivity; reflexivity.
Qed.

Lemma missing_duration_written_null_witness :
  exists entry,
    period_entry sample_host (VObj [("type", VStr "VAST")]) = Ok entry
    /\ get_opt entry "durationInYears" = VNum nan
    /\ get_opt (JSON_stringify entry) "durationInYears" = VNull
    /\ get_opt (JSON_stringify entry) "duration" = VUndefined.
Proof.
  apply (missing_duration_written_null sample_host (VObj [("type", VStr "VAST")])).
  - split; [reflexivity |]. left. reflexivity.
  - reflexivity.
Defined.

(** ** Whole years *)

Lemma whole_years_checked :
  all_from whole_years (Z.to_nat 10001) 0 = true.
Proof. vm_compute. reflexivity. Qed.

Lemma year_more_checked :
  all_from year_more (Z.to_nat 10001) 0 = true.
Proof. vm_compute. reflexivity. Qed.

(** X22.  Whole years come out exact, and a year more is 1.0 more, in
    binary64 as the adapter computes: for every whole number [n] from 0 to
    10000, a duration of [12 * n] months gives [durationInYears = n], and
    the value for [n + 12] months is the value for [n] months plus 1. *)
Theorem durationInYears_years (h : Host) (n : Z) :
  (0 <= n <= 10000)%Z ->
  durationInYears h (VNum (number_of_Z (12 * n))) = VNum (number_of_Z n)
  /\ exists y,
       durationInYears h (VNum (number_of_Z n)) = VNum y
       /\ durationInYears h (VNum (number_of_Z (n + 12))) = VNum (y + 1).
Proof.
  intros Hn. unfold durationInYears. cbn [ToNumber]. split.
  - f_equal. apply FloatAxioms.Leibniz.eqb_spec.
    apply (all_from_spec whole_years _ _ whole_years_checked). lia.
  - eexists. split; [reflexivity |].
    f_equal. apply FloatAxioms.Leibniz.eqb_spec.
    apply (all_from_spec year_more _ _ year_more_checked). lia.
Qed.

Lemma durationInYears_years_witness :
  durationInYears sample_host (VNum 360) = VNum 30
  /\ exists y,
       durationInYears sample_host (VNum 30) = VNum y
       /\ durationInYears sample_host (VNum 42) = VNum (y + 1).
Proof.
  apply (durationInYears_years sample_host 30). lia.
Defined.

(** ** What the interest-rate adapter copies *)

Lemma discount_written (ds : list value) :
  Forall discount_doc ds -> JSON_stringify (VArr ds) = VArr ds.
Proof.
  intros H. cbn [JSON_stringify]. f_equal.
  induction H as [| d ds Hd Hds IH]; cbn [map]; [reflexivity |].
  rewrite IH. f_equal.
  destruct Hd as [-> | (l & _ & ->)]; reflexivity.
Qed.

(** X23.  On success the interest-rate adapter copies the provider's
    members as they are: each of [interestRate], [effectiveRate],
    [baseRate], [appliedDiscounts] and [calculationDate] is written as the
    payload has it and is left out when the payload has none, the three
    members of [bridgingCredit] are the payload's [overbruggingskrediet],
    [renteblad] and [overbruggingskredieten] in the same way, and
    [requestParameters] is the validated request (defaults filled in,
    other members of the arguments dropped), not the raw arguments. *)
Theorem interest_rate_passthrough (h : Host) (S : schema) (fetch : Fetch)
    (args out : value) (response : Response.t) (data ps : value) :
  In S [Tools.InterestRateRequestSchema; Tools2.InterestRateRequestSchema] ->
  parse S args = Ok out ->
  (forall req, fetch req = Ok response) ->
  Response.ok response = true ->
  Response.json response = Ok data ->
  defined data ->
  periods h data = Ok ps ->
  exists sent r doc,
    calculateInterestRate h S fetch args = (sent, Ok r)
    /\ document r = Some doc
    /\ at_path doc ["success"] = VBool true
    /\ (forall k,
          In k legacy_fields ->
          at_path doc ["data"; k] = JSON_member (get_opt data k))
    /\ at_path doc ["data"; "bridgingCredit"; "rate"]
       = JSON_member (get_opt data "overbruggingskrediet")
    /\ at_path doc ["data"; "bridgingCredit"; "rateSheetDate"]
       = JSON_member (get_opt data "renteblad")
    /\ at_path doc ["data"; "bridgingCredit"; "options"]
       = JSON_member (get_opt data "overbruggingskredieten")
    /\ at_path doc ["data"; "requestParameters"] = out.
Proof.
  intros HS Hparse Hf Hok Hj Hd Hps.
  destruct (interest_run_ok h S fetch args out response data HS Hparse Hf Hok Hj)
    as (req & ->).
  rewrite (interest_rate_success_defined h _ _ _ _ data Hd), Hps.
  cbn [rbind try_catch].
  eexists. eexists. eexists.
  split; [reflexivity |]. split; [reflexivity |]. split; [reflexivity |].
  cbn [text text_result].
  split; [| split; [| split; [| split]]].
  - intros k Hk. rewrite document_data_member by reflexivity.
    destruct Hk as [<- | [<- | [<- | [<- | [<- | []]]]]]; reflexivity.
  - change (at_path ?d ["data"; "bridgingCredit"; "rate"])
      with (get_opt (at_path d ["data"; "bridgingCredit"]) "rate").
    rewrite document_data_member by reflexivity.
    cbn [lookup String.eqb Ascii.eqb Bool.eqb JSON_member].
    rewrite stringify_lookup by reflexivity. reflexivity.
  - change (at_path ?d ["data"; "bridgingCredit"; "rateSheetDate"])
      with (get_opt (at_path d ["data"; "bridgingCredit"]) "rateSheetDate").
    rewrite document_data_member by reflexivity.
    cbn [lookup String.eqb Ascii.eqb Bool.eqb JSON_member].
    rewrite stringify_lookup by reflexivity. reflexivity.
  - change (at_path ?d ["data"; "bridgingCredit"; "options"])
      with (get_opt (at_path d ["data"; "bridgingCredit"]) "options").
    rewrite document_data_member by reflexivity.
    cbn [lookup String.eqb Ascii.eqb Bool.eqb JSON_member].
    rewrite stringify_lookup by reflexivity. reflexivity.
  - rewrite document_data_member by reflexivity.
    cbn [lookup String.eqb Ascii.eqb Bool.eqb JSON_member].
    destruct (interest_schemas S HS) as (products & types & ->).
    pose proof (proj1 (parse_valid _ _ _) Hparse) as Hv.
    apply interest_schema_valid_docs in Hv.
    destruct Hv as (props & p & t & ds & b & _ & -> & _ & _ & _ & _ & Hds & _).
    cbn [get_opt lookup String.eqb Ascii.eqb Bool.eqb].
    pose proof (discount_written ds Hds) as Hw.
    cbn [JSON_stringify] in Hw |- *.
    apply (f_equal (fun v => match v with VArr l => l | _ => [] end)) in Hw.
    cbv beta iota in Hw. rewrite Hw. reflexivity.
Qed.

Lemma interest_rate_passthrough_witness :
  exists sent r doc,
    calculateInterestRate sample_host Tools2.InterestRateRequestSchema
      (Fixtures.mockFetch
         (VObj [("renteblad", VStr "2024-01-15"); ("baseRate", VNum 3)]))
      (VObj [("product", VStr "WONING"); ("type", VStr "LINEAIR");
             ("campaign", VStr "spring")])
    = (sent, Ok r)
    /\ document r = Some doc
    /\ at_path doc ["data"; "baseRate"] = VNum 3
    /\ at_path doc ["data"; "interestRate"] = VUndefined
    /\ at_path doc ["data"; "bridgingCredit"; "rateSheetDate"]
       = VStr "2024-01-15"
    /\ at_path doc ["data"; "requestParameters"]
       = VObj [("product", VStr "WONING"); ("type", VStr "LINEAIR");
               ("discounts", VArr []); ("inactive", VBool false)].
Proof.
  destruct
    (interest_rate_passthrough sample_host Tools2.InterestRateRequestSchema
       (Fixtures.mockFetch
          (VObj [("renteblad", VStr "2024-01-15"); ("baseRate", VNum 3)]))
       (VObj [("product", VStr "WONING"); ("type", VStr "LINEAIR");
              ("campaign", VStr "spring")])
       (VObj [("product", VStr "WONING"); ("type", VStr "LINEAIR");
              ("discounts", VArr []); ("inactive", VBool false)])
       (Response.mk true 200 (Throw (TypeError (NotAFunction VUndefined "text")))
          (Ok (VObj [("renteblad", VStr "2024-01-15");
                     ("baseRate", VNum 3)])))
       (VObj [("renteblad", VStr "2024-01-15"); ("baseRate", VNum 3)])
       (VArr []))
    as (sent & r & doc & Hrun & Hdoc & _ & Hlegacy & _ & Hdate & _ & Hecho).
  - simpl. auto.
  - reflexivity.
  - reflexivity.
  - reflexivity.
  - reflexivity.
  - reflexivity.
  - reflexivity.
  - exists sent, r, doc. split; [exact Hrun |]. split; [exact Hdoc |].
    split; [rewrite Hlegacy by (simpl; auto); reflexivity |].
    split; [rewrite Hlegacy by (simpl; auto); reflexivity |].
    split; [rewrite Hdate; reflexivity | exact Hecho].
Defined.

(** ** The prompt *)

Lemma append_cancel (p a b : string) : p ++ a = p ++ b -> a = b.
Proof.
  induction p as [| c p IH]; simpl; intros H; [exact H |].
  apply IH.
  exact (f_equal (fun s => match s with String _ r => r | EmptyString => s end) H).
Qed.

(** X24.  The prompt [mortgage-guidance] is one message of role [user]
    whose text is the fixed sentence followed by the caller's message,
    unchanged: two prompts are the same only when the messages are, and an
    empty message leaves the fixed sentence alone. *)
Theorem mortgage_guidance_keeps_message (message message' : string) :
  (exists text_,
     mortgage_guidance message = [mkPrompt "user" (mkText "text" (VStr text_))]
     /\ substring
          (String.length "Please help me with ABN AMRO mortgage calculations and interest rates. Additional context: ")
          (String.length message) text_
        = message)
  /\ (mortgage_guidance message = mortgage_guidance message' ->
      message = message').
Proof.
  split.
  - eexists. split; [reflexivity |].
    cbn [String.length substring].
    induction message as [| c m IH]; simpl; [reflexivity |].
    f_equal. exact IH.
  - unfold mortgage_guidance. intros H.
    apply (f_equal (fun l => match l with
                             | [m] => match text (prompt_content m) with
                                      | VStr s => s
                                      | _ => ""
                                      end
                             | _ => ""
                             end)) in H.
    cbv beta iota in H. cbn [text prompt_content] in H.
    exact (append_cancel _ _ _ H).
Qed.

(** ** Rate entries that cannot be read *)

Lemma has_type_nullish (tag : string) (x : value) :
  is_nullish x = true ->
  has_type tag x = Throw (TypeError (ReadOfNullish x "type")).
Proof.
  destruct x; try discriminate; reflexivity.
Qed.

Lemma rfilter_throw (tag : string) (pre post : list value) (x : value) :
  Forall defined pre ->
  is_nullish x = true ->
  rfilter (has_type tag) (pre ++ x :: post)
  = Throw (TypeError (ReadOfNullish x "type")).
Proof.
  intros Hpre Hx. induction Hpre as [| a pre Ha Hpre IH]; simpl.
  - rewrite (has_type_nullish tag x Hx). reflexivity.
  - rewrite (has_type_defined tag a Ha). cbn [rbind]. rewrite IH. reflexivity.
Qed.

Lemma rfind_before_nullish (tag : string) (pre post : list value) (x : value) :
  Forall defined pre ->
  is_nullish x = true ->
  (exists found, rfind (has_type tag) (pre ++ x :: post) = Ok found)
  \/ rfind (has_type tag) (pre ++ x :: post)
     = Throw (TypeError (ReadOfNullish x "type")).
Proof.
  intros Hpre Hx. induction Hpre as [| a pre Ha Hpre IH]; simpl.
  - right. rewrite (has_type_nullish tag x Hx). reflexivity.
  - rewrite (has_type_defined tag a Ha). cbn [rbind].
    destruct (tagged tag a); [left; eauto | exact IH].
Qed.

(** X25.  A rate entry that is [null] spoils its period wherever it
    stands: when the first [null] (or [undefined]) entry of [rates] comes
    after readable entries only, [period_entry] faults with the
    [TypeError] for reading [type] of it, also when an [NHG] entry stands
    before it (the search for [NHG] stops there, the selection of [LTV]
    entries does not). *)
Theorem null_rate_entry_fails_period (h : Host) (period : value)
    (pre post : list value) (x : value) :
  defined period ->
  get_opt period "rates" = VArr (pre ++ x :: post) ->
  Forall defined pre ->
  is_nullish x = true ->
  period_entry h period = Throw (TypeError (ReadOfNullish x "type")).
Proof.
  intros Hp Hr Hpre Hx.
  rewrite (period_entry_defined h period Hp), Hr.
  unfold dutchNationalMortgageGuarantee, lifeTimeValue.
  rewrite (rfilter_throw "LTV" pre post x Hpre Hx).
  destruct (rfind_before_nullish "NHG" pre post x Hpre Hx) as [(found & ->) | ->];
    reflexivity.
Qed.

Lemma null_rate_entry_fails_period_witness :
  period_entry sample_host
    (VObj [("duration", VNum 120);
           ("rates",
            VArr [VObj [("type", VStr "NHG"); ("value", VNum 3.2)];
                  VNull;
                  VObj [("type", VStr "LTV"); ("ltv", VStr "80-90%");
                        ("value", VNum 3.5)]])])
  = Throw (TypeError (ReadOfNullish VNull "type")).
Proof.
  apply
    (null_rate_entry_fails_period sample_host _
       [VObj [("type", VStr "NHG"); ("value", VNum 3.2)]]
       [VObj [("type", VStr "LTV"); ("ltv", VStr "80-90%");
              ("value", VNum 3.5)]]
       VNull).
  - reflexivity.
  - reflexivity.
  - repeat constructor.
  - reflexivity.
Defined.
